(** * SAS Powerschool Enhancement Suite: the helpers of [src/js/helpers.js]

    A shallow embedding of the grade helpers (letter grade, grade point
    average and final percent conversions, the course page scraping and the
    saved grades of the browser storage) together with the part of the
    JavaScript runtime they call, and the properties of the helpers.

    JavaScript numbers are IEEE 754 binary64 values: they are modelled by
    [spec_float] with the operations of the standard library at precision 53
    and maximal exponent 1024.  JavaScript strings are modelled by [string];
    every character stands for one code unit below 256. *)

From Stdlib Require Import ZArith Bool Ascii String List Lia.
From Stdlib Require Import Floats.SpecFloat Numbers.DecimalString Numbers.DecimalN.
From stdpp Require Import base option list gmap strings.
Import ListNotations.

Local Open Scope string_scope.
Local Open Scope Z_scope.

(** ** Numbers *)

Module Number.

Definition prec : Z := 53.
Definition emax : Z := 1024.

Definition number : Type := spec_float.

Definition NaN : number := S754_nan.
Definition Infinity : number := S754_infinity false.
Definition NegInfinity : number := S754_infinity true.
Definition zero : number := S754_zero false.

Definition add : number -> number -> number := SFadd prec emax.
Definition mul : number -> number -> number := SFmul prec emax.
Definition div : number -> number -> number := SFdiv prec emax.

Definition eqb : number -> number -> bool := SFeqb.
Definition ltb : number -> number -> bool := SFltb.
Definition leb : number -> number -> bool := SFleb.

Definition is_nan (x : number) : bool :=
  match x with S754_nan => true | _ => false end.

(** The number nearest to the integer [z]. *)
Definition of_Z (z : Z) : number := binary_normalize prec emax z 0 false.

(** The number nearest to [d * 10 ^ e], the value of a decimal literal
    with digits [d] and decimal exponent [e]; [neg] is the sign, kept for
    a zero. *)
Definition of_decimal (neg : bool) (d : N) (e : Z) : number :=
  match d with
  | N0 => S754_zero neg
  | Npos p =>
      if 0 <=? e
      then binary_normalize prec emax (cond_Zopp neg (Zpos p * 10 ^ e)) 0 neg
      else div (S754_finite neg p 0)
               (S754_finite false (Z.to_pos (10 ^ (- e))) 0)
  end.

(** [Math.max] of two numbers: [NaN] when one of them is, and [+0] above
    [-0]. *)
Definition max (x y : number) : number :=
  match x, y with
  | S754_nan, _ | _, S754_nan => S754_nan
  | S754_zero sx, S754_zero sy => S754_zero (sx && sy)
  | _, _ => if ltb x y then y else x
  end.

End Number.

Export Number (number).

(** ** Strings of the runtime *)

Module JSString.

Definition code (c : ascii) : N := N_of_ascii c.

Definition is_digit (c : ascii) : bool := (48 <=? code c)%N && (code c <=? 57)%N.

(** Line terminators, the characters that [.] of a regular expression
    does not match: line feed and carriage return. *)
Definition is_line_terminator (c : ascii) : bool :=
  (code c =? 10)%N || (code c =? 13)%N.

(** White space and line terminators, the characters that the conversion
    of a string to a number and [parseFloat] skip: tab, line feed, vertical
    tab, form feed, carriage return, space and no-break space. *)
Definition is_white_space (c : ascii) : bool :=
  ((9 <=? code c)%N && (code c <=? 13)%N) || (code c =? 32)%N || (code c =? 160)%N.

Fixpoint trim_start (s : string) : string :=
  match s with
  | String c s' => if is_white_space c then trim_start s' else s
  | EmptyString => EmptyString
  end.

Fixpoint trim_end (s : string) : string :=
  match s with
  | String c s' =>
      match trim_end s' with
      | EmptyString => if is_white_space c then EmptyString else String c EmptyString
      | t => String c t
      end
  | EmptyString => EmptyString
  end.

Definition trim (s : string) : string := trim_end (trim_start s).

(** [starts_with p s]: the string [s] begins with [p]. *)
Definition starts_with (p s : string) : bool := String.prefix p s.

(** The longest prefix of [s] made of characters satisfying [f], and the
    rest of [s]. *)
Fixpoint span (f : ascii -> bool) (s : string) : string * string :=
  match s with
  | String c s' =>
      if f c then let '(a, b) := span f s' in (String c a, b)
      else (EmptyString, s)
  | EmptyString => (EmptyString, EmptyString)
  end.

Fixpoint drop (n : nat) (s : string) : string :=
  match n, s with
  | S n', String _ s' => drop n' s'
  | _, _ => s
  end.

Fixpoint take (n : nat) (s : string) : string :=
  match n, s with
  | S n', String c s' => String c (take n' s')
  | _, _ => EmptyString
  end.

(** [s.slice(1, -1)]: the string without its first and its last
    character. *)
Definition slice_1_m1 (s : string) : string :=
  take (String.length s - 2) (drop 1 s).

(** [s.split(sep)] for a separator of one character. *)
Fixpoint split (sep : ascii) (s : string) : list string :=
  match s with
  | EmptyString => [EmptyString]
  | String c s' =>
      if Ascii.eqb c sep then EmptyString :: split sep s'
      else
        match split sep s' with
        | t :: ts => String c t :: ts
        | [] => [String c EmptyString]
        end
  end.

Definition of_N (n : N) : string := NilZero.string_of_uint (N.to_uint n).

Definition of_Z (z : Z) : string :=
  match z with
  | Zneg p => "-" ++ of_N (Npos p)
  | _ => of_N (Z.to_N z)
  end.

Fixpoint repeat (c : ascii) (n : nat) : string :=
  match n with
  | O => EmptyString
  | S n' => String c (repeat c n')
  end.

Definition digit_value (c : ascii) : N := (code c - 48)%N.

(** The value of a string of decimal digits. *)
Definition decimal_value (s : string) : N :=
  fold_left (fun acc c => (10 * acc + digit_value c)%N) (list_ascii_of_string s) 0%N.

End JSString.

(** ** Numbers and strings *)

Module NumberString.
Import Number JSString.

Definition same (x y : number) : bool :=
  match x, y with
  | S754_nan, S754_nan => true
  | S754_zero a, S754_zero b => Bool.eqb a b
  | S754_infinity a, S754_infinity b => Bool.eqb a b
  | S754_finite a m e, S754_finite b m' e' =>
      Bool.eqb a b && (m =? m')%positive && (e =? e')
  | _, _ => false
  end.

(** The exact value of the positive finite number with mantissa [m] and
    exponent [e], as a fraction. *)
Definition num (m : positive) (e : Z) : Z := if 0 <=? e then Zpos m * 2 ^ e else Zpos m.
Definition den (e : Z) : Z := if 0 <=? e then 1 else 2 ^ (- e).

Definition digits10 (z : Z) : Z := Z.of_nat (String.length (of_N (Z.to_N z))).

(** [n] with [10 ^ (n - 1) <= p / q < 10 ^ n]. *)
Definition magnitude (p q : Z) : Z :=
  if q <=? p then digits10 (p / q) else 1 - digits10 ((q - 1) / p).

(** [floor (p / q / 10 ^ scale)] *)
Definition scaled_floor (p q scale : Z) : Z :=
  if 0 <=? scale then p / (q * 10 ^ scale) else (p * 10 ^ (- scale)) / q.

(** The sign of [(p / q - s * 10 ^ scale)], cleared of denominators. *)
Definition distance (p q scale s : Z) : Z :=
  if 0 <=? scale then Z.abs (p - s * 10 ^ scale * q)
  else Z.abs (p * 10 ^ (- scale) - s * q).

(** The digits [s] of the shortest decimal that denotes [x] with [k]
    digits at magnitude [n0], when there is one. *)
Definition candidate (x : number) (p q n0 k : Z) : option Z :=
  let scale := n0 - k in
  let lo := scaled_floor p q scale in
  let hi := lo + 1 in
  let ok s := (0 <? s) && same (of_decimal false (Z.to_N s) scale) x in
  match ok lo, ok hi with
  | true, true =>
      match distance p q scale lo ?= distance p q scale hi with
      | Lt => Some lo
      | Gt => Some hi
      | Eq => if Z.even lo then Some lo else Some hi
      end
  | true, false => Some lo
  | false, true => Some hi
  | false, false => None
  end.

Fixpoint shortest (x : number) (p q n0 : Z) (ks : list Z) : Z * Z :=
  match ks with
  | [] => (scaled_floor p q (n0 - 17), 17)
  | k :: ks' =>
      match candidate x p q n0 k with
      | Some s => (s, k)
      | None => shortest x p q n0 ks'
      end
  end.

(** [Number::toString] of the positive finite number [m * 2 ^ e]. *)
Definition toString_pos (m : positive) (e : Z) : string :=
  let p := num m e in
  let q := den e in
  let n0 := magnitude p q in
  let '(s, k) := shortest (S754_finite false m e) p q n0
                   [1; 2; 3; 4; 5; 6; 7; 8; 9; 10; 11; 12; 13; 14; 15; 16; 17] in
  let '(s, n) := if s =? 10 ^ k then (10 ^ (k - 1), n0 + 1) else (s, n0) in
  let ds := of_Z s in
  let exponent (n1 : Z) : string :=
    "e" ++ (if 0 <=? n1 then "+" else "-") ++ of_Z (Z.abs n1) in
  if (k <=? n) && (n <=? 21) then ds ++ repeat "0" (Z.to_nat (n - k))
  else if (0 <? n) && (n <=? 21) then
    take (Z.to_nat n) ds ++ "." ++ drop (Z.to_nat n) ds
  else if (-6 <? n) && (n <=? 0) then "0." ++ repeat "0" (Z.to_nat (- n)) ++ ds
  else if k =? 1 then ds ++ exponent (n - 1)
  else take 1 ds ++ "." ++ drop 1 ds ++ exponent (n - 1).

(** [Number::toString(x)], radix 10. *)
Definition toString (x : number) : string :=
  match x with
  | S754_nan => "NaN"
  | S754_zero _ => "0"
  | S754_infinity s => if s then "-Infinity" else "Infinity"
  | S754_finite s m e => (if s then "-" else "") ++ toString_pos m e
  end.

(** The integer [n] for which [n / 10 ^ f - m * 2 ^ e] is as close to zero
    as possible, the larger one when there are two. *)
Definition fixed_integer (m : positive) (e : Z) (f : nat) : Z :=
  if 0 <=? e then Zpos m * 2 ^ e * 10 ^ Z.of_nat f
  else (2 * Zpos m * 10 ^ Z.of_nat f + 2 ^ (- e)) / 2 ^ (1 - e).

(** The decimal digits of [n] with a point before the last [f] of them. *)
Definition fixed_digits (n : Z) (f : nat) : string :=
  let ds := of_Z n in
  let ds := repeat "0" (S f - String.length ds) ++ ds in
  match f with
  | O => ds
  | _ => take (String.length ds - f) ds ++ "." ++ drop (String.length ds - f) ds
  end.

(** [Number.prototype.toFixed(f)] *)
Definition toFixed (x : number) (f : nat) : string :=
  match x with
  | S754_nan => "NaN"
  | S754_infinity s => if s then "-Infinity" else "Infinity"
  | S754_zero _ => fixed_digits 0 f
  | S754_finite s m e =>
      (if s then "-" else "") ++
      (if 10 ^ 21 * den e <=? num m e then toString_pos m e
       else fixed_digits (fixed_integer m e f) f)
  end.

End NumberString.

(** ** Numeric literals in strings *)

Module NumericLiteral.
Import Number JSString.

(** The sign of a literal: [(negative, rest)]. *)
Definition sign (s : string) : bool * string :=
  match s with
  | String "-" s' => (true, s')
  | String "+" s' => (false, s')
  | _ => (false, s)
  end.

(** The exponent part at the head of [s], when there is one: its value
    and the rest of [s]. *)
Definition exponent_part (s : string) : option (Z * string) :=
  match s with
  | String c s' =>
      if Ascii.eqb c "e" || Ascii.eqb c "E" then
        let '(neg, s'') := sign s' in
        let '(ds, rest) := span is_digit s'' in
        match ds with
        | EmptyString => None
        | _ => Some (cond_Zopp neg (Z.of_N (decimal_value ds)), rest)
        end
      else None
  | EmptyString => None
  end.

(** An unsigned decimal literal at the head of [s]: digits with an
    optional fraction, or a fraction alone, and an optional exponent.
    The result is the digits, the decimal exponent and the rest of [s]. *)
Definition unsigned_decimal (s : string) : option (N * Z * string) :=
  let '(int_digits, rest1) := span is_digit s in
  let '(frac_digits, rest2, has_point) :=
    match rest1 with
    | String "." r => let '(fd, r') := span is_digit r in (fd, r', true)
    | _ => (EmptyString, rest1, false)
    end in
  match int_digits, frac_digits with
  | EmptyString, EmptyString => None
  | _, _ =>
      let digits := decimal_value (int_digits ++ frac_digits) in
      let shift := Z.of_nat (String.length frac_digits) in
      match exponent_part rest2 with
      | Some (e, rest3) => Some (digits, e - shift, rest3)
      | None => Some (digits, - shift, rest2)
      end
  end.

(** The longest prefix of [s] that is a [StrDecimalLiteral]: its value
    and the rest of [s]. *)
Definition StrDecimalLiteral (s : string) : option (number * string) :=
  let '(neg, s') := sign s in
  if starts_with "Infinity" s' then Some (S754_infinity neg, drop 8 s')
  else
    match unsigned_decimal s' with
    | Some (d, e, rest) => Some (of_decimal neg d e, rest)
    | None => None
    end.

Definition is_hex_digit (c : ascii) : bool :=
  is_digit c || ((97 <=? code c)%N && (code c <=? 102)%N)
             || ((65 <=? code c)%N && (code c <=? 70)%N).

Definition hex_digit_value (c : ascii) : N :=
  if is_digit c then (code c - 48)%N
  else if (97 <=? code c)%N then (code c - 87)%N
  else (code c - 55)%N.

Definition radix_value (radix : N) (s : string) : N :=
  fold_left (fun acc c => (radix * acc + hex_digit_value c)%N) (list_ascii_of_string s) 0%N.

Definition all_chars (f : ascii -> bool) (s : string) : bool :=
  forallb f (list_ascii_of_string s).

(** A whole string that is a hexadecimal, octal or binary integer
    literal. *)
Definition NonDecimalIntegerLiteral (s : string) : option number :=
  match s with
  | String "0" (String c ds) =>
      let lit (radix : N) (ok : ascii -> bool) :=
        match ds with
        | EmptyString => None
        | _ => if all_chars ok ds
               then Some (Number.of_Z (Z.of_N (radix_value radix ds)))
               else None
        end in
      if Ascii.eqb c "x" || Ascii.eqb c "X" then lit 16%N is_hex_digit
      else if Ascii.eqb c "o" || Ascii.eqb c "O"
      then lit 8%N (fun d => is_digit d && (code d <=? 55)%N)
      else if Ascii.eqb c "b" || Ascii.eqb c "B"
      then lit 2%N (fun d => is_digit d && (code d <=? 49)%N)
      else None
  | _ => None
  end.

(** [StringToNumber]: the conversion of a string to a number. *)
Definition StringToNumber (s : string) : number :=
  let t := trim s in
  match t with
  | EmptyString => zero
  | _ =>
      match StrDecimalLiteral t with
      | Some (v, EmptyString) => v
      | _ =>
          match NonDecimalIntegerLiteral t with
          | Some v => v
          | None => NaN
          end
      end
  end.

(** [parseFloat] of a string. *)
Definition parseFloat_string (s : string) : number :=
  match StrDecimalLiteral (trim_start s) with
  | Some (v, _) => v
  | None => NaN
  end.

End NumericLiteral.

(** ** Values, objects and operators *)

Module JS.
Import Number.

(** The values the helpers handle.  A letter grade table is a plain
    object: a lookup that misses its own properties goes on to the
    properties it inherits from [Object.prototype], which are built-in
    functions and, for [__proto__], the prototype object. *)
Inductive value : Type :=
| Undefined
| Num (x : number)
| Str (s : string)
| NativeFunction (name : string)
| ObjectPrototype.

Inductive error : Type :=
| TypeError
| ReferenceError (identifier : string).

(** The outcome of evaluating a function body. *)
Inductive completion (A : Type) : Type :=
| Return (a : A)
| Throw (e : error).
Arguments Return {A} a.
Arguments Throw {A} e.

Definition bind {A B : Type} (c : completion A) (k : A -> completion B) : completion B :=
  match c with
  | Return a => k a
  | Throw e => Throw e
  end.

(** [ToPrimitive]: an object converts through its [toString] method. *)
Definition ToPrimitive (v : value) : value :=
  match v with
  | NativeFunction name => Str ("function " ++ name ++ "() { [native code] }")
  | ObjectPrototype => Str "[object Object]"
  | _ => v
  end.

Definition ToNumber (v : value) : number :=
  match ToPrimitive v with
  | Num x => x
  | Str s => NumericLiteral.StringToNumber s
  | _ => NaN
  end.

Definition ToString (v : value) : string :=
  match ToPrimitive v with
  | Num x => NumberString.toString x
  | Str s => s
  | _ => "undefined"
  end.

(** [a === b] *)
Definition strict_equal (a b : value) : bool :=
  match a, b with
  | Undefined, Undefined => true
  | Num x, Num y => Number.eqb x y
  | Str s, Str t => String.eqb s t
  | NativeFunction f, NativeFunction g => String.eqb f g
  | ObjectPrototype, ObjectPrototype => true
  | _, _ => false
  end.

(** [a < b] *)
Definition less_than (a b : value) : bool :=
  match ToPrimitive a, ToPrimitive b with
  | Str s, Str t => String.ltb s t
  | pa, pb => Number.ltb (ToNumber pa) (ToNumber pb)
  end.

(** [a + b] *)
Definition plus (a b : value) : value :=
  match ToPrimitive a, ToPrimitive b with
  | Str s, pb => Str (s ++ ToString pb)
  | pa, Str t => Str (ToString pa ++ t)
  | pa, pb => Num (Number.add (ToNumber pa) (ToNumber pb))
  end.

(** [a * b] *)
Definition times (a b : value) : number := Number.mul (ToNumber a) (ToNumber b).

(** [isNaN(v)] *)
Definition isNaN (v : value) : bool := is_nan (ToNumber v).

(** [parseFloat(v)] *)
Definition parseFloat (v : value) : number :=
  NumericLiteral.parseFloat_string (ToString v).

(** An object literal: its own properties in the order of the source. *)
Definition object : Type := list (string * value).

Definition own_property (o : object) (key : string) : option value :=
  snd <$> List.find (fun kv => String.eqb (fst kv) key) o.

(** The properties every plain object inherits. *)
Definition Object_prototype : object :=
  [ ("constructor", NativeFunction "Object");
    ("__defineGetter__", NativeFunction "__defineGetter__");
    ("__defineSetter__", NativeFunction "__defineSetter__");
    ("hasOwnProperty", NativeFunction "hasOwnProperty");
    ("__lookupGetter__", NativeFunction "__lookupGetter__");
    ("__lookupSetter__", NativeFunction "__lookupSetter__");
    ("isPrototypeOf", NativeFunction "isPrototypeOf");
    ("propertyIsEnumerable", NativeFunction "propertyIsEnumerable");
    ("toString", NativeFunction "toString");
    ("valueOf", NativeFunction "valueOf");
    ("__proto__", ObjectPrototype);
    ("toLocaleString", NativeFunction "toLocaleString") ].

(** [key in o] *)
Definition has_property (o : object) (key : string) : bool :=
  match own_property o key with
  | Some _ => true
  | None => bool_decide (is_Some (own_property Object_prototype key))
  end.

(** [o[key]] *)
Definition get (o : object) (key : string) : value :=
  match own_property o key with
  | Some v => v
  | None => default Undefined (own_property Object_prototype key)
  end.

(** [a[i]] on an array, [undefined] outside of it. *)
Definition index {A : Type} (a : list A) (i : Z) : option A :=
  if i <? 0 then None else a !! Z.to_nat i.

(** [a.slice(1, -1)] on an array. *)
Definition slice_1_m1 {A : Type} (a : list A) : list A :=
  take (length a - 2) (drop 1 a).

End JS.

(** ** The document of a page *)

Module DOM.
Import JSString.

(** An element of the parsed page: its tag in lower case, its attributes,
    the text the browser renders for it ([innerText]) and its child
    elements. *)
#[warnings="-register-all"]
Inductive element : Type :=
| Element (tag : string) (attributes : list (string * string))
    (innerText : string) (children : list element).

Definition tag_of (e : element) : string := let 'Element t _ _ _ := e in t.
Definition attributes_of (e : element) : list (string * string) :=
  let 'Element _ a _ _ := e in a.
Definition innerText (e : element) : string := let 'Element _ _ t _ := e in t.

Definition getAttribute (e : element) (name : string) : option string :=
  snd <$> List.find (fun kv => String.eqb (fst kv) name) (attributes_of e).

(** The elements below [e], in document order. *)
Fixpoint descendants (e : element) : list element :=
  match e with
  | Element _ _ _ cs => flat_map (fun c => c :: descendants c) cs
  end.

Definition lower (c : ascii) : ascii :=
  if (65 <=? code c)%N && (code c <=? 90)%N then ascii_of_N (code c + 32) else c.

Fixpoint lower_case (s : string) : string :=
  match s with
  | String c s' => String (lower c) (lower_case s')
  | EmptyString => EmptyString
  end.

(** A compound selector [tag] or [tag[attribute=value]]; the value of a
    presentational attribute such as [align] is compared without regard to
    case. *)
Record selector : Type := mkSelector {
  selector_tag : string;
  selector_attribute : option (string * string);
  selector_ignores_case : bool
}.

Definition selects (sel : selector) (e : element) : bool :=
  String.eqb (tag_of e) (selector_tag sel)
  && match selector_attribute sel with
     | None => true
     | Some (name, v) =>
         match getAttribute e name with
         | Some w =>
             if selector_ignores_case sel
             then String.eqb (lower_case w) (lower_case v)
             else String.eqb w v
         | None => false
         end
     end.

Definition querySelectorAll (e : element) (sel : selector) : list element :=
  List.filter (selects sel) (descendants e).

(** The first selected element, or [null]. *)
Definition querySelector (e : element) (sel : selector) : option element :=
  head (querySelectorAll e sel).

End DOM.

(** ** The models of the repository: [models/Assignment], [models/Course] *)

Module Models.

Inductive status : Type := MISSING.

(** Modelled from the spec: the class [Assignment] of
    [models/Assignment.js], an entity with a name, a raw score, its index
    in the course and a set of status flags; [new Assignment(name, score,
    order)] has no flag. *)
Record Assignment : Type := mkAssignment {
  assignment_name : string;
  assignment_score : string;
  assignment_order : nat;
  assignment_statuses : list status
}.

Definition new_Assignment (name score : string) (order : nat) : Assignment :=
  mkAssignment name score order [].

(** Modelled from the spec: [addStatus] adds a flag to the set. *)
Definition addStatus (a : Assignment) (s : status) : Assignment :=
  mkAssignment (assignment_name a) (assignment_score a) (assignment_order a)
    (assignment_statuses a ++ [s])%list.

(** Modelled from the spec: the class [Course] of [models/Course.js], an
    entity with a name, a link, a letter grade (or another string), a
    final percent when there is one, and its assignments. *)
Record Course : Type := mkCourse {
  name : string;
  link : string;
  grade : string;
  finalPercent : option number;
  assignments_of : list Assignment
}.

(** Modelled from the spec: the persisted form of a course, the plain
    object with the fields of the entity that [toObject] returns. *)
Record CourseRecord : Type := mkCourseRecord {
  record_name : string;
  record_link : string;
  record_grade : string;
  record_finalPercent : option number;
  record_assignments : list Assignment
}.

Definition toObject (c : Course) : CourseRecord :=
  mkCourseRecord (name c) (link c) (grade c) (finalPercent c) (assignments_of c).

Definition new_Course (r : CourseRecord) : Course :=
  mkCourse (record_name r) (record_link r) (record_grade r)
    (record_finalPercent r) (record_assignments r).

End Models.

(** ** [src/js/helpers.js] *)

Module Helpers.
Import Number JSString JS DOM Models.

(** The number that the decimal literal [d * 10 ^ e] of the source
    denotes. *)
Definition literal (d : Z) (e : Z) : number :=
  of_decimal (d <? 0) (Z.to_N (Z.abs d)) e.

Definition grade_gpa : object :=
  [ ("A+", Num (literal 45 (-1)));
    ("A", Num (literal 40 (-1)));
    ("B+", Num (literal 35 (-1)));
    ("B", Num (literal 30 (-1)));
    ("C+", Num (literal 25 (-1)));
    ("C", Num (literal 20 (-1)));
    ("D+", Num (literal 15 (-1)));
    ("D", Num (literal 10 (-1)));
    ("F", Num (literal 0 (-1))) ].

Definition gradeToGPA (grade : string) : value :=
  if has_property grade_gpa grade then get grade_gpa grade
  else Num (literal (-1) 0).

Definition grade_fp : object :=
  [ ("A+", Num (literal 90 0));
    ("A", Num (literal 80 0));
    ("B+", Num (literal 70 0));
    ("B", Num (literal 60 0));
    ("C+", Num (literal 50 0));
    ("C", Num (literal 40 0));
    ("D+", Num (literal 30 0));
    ("D", Num (literal 20 0));
    ("F", Num (literal 10 0)) ].

Definition gradeToFP (grade : string) : value :=
  if has_property grade_fp grade then get grade_fp grade
  else Num (literal (-1) 0).

Definition avaliableGrades : list string :=
  ["A+"; "A"; "B+"; "B"; "C+"; "C"; "D+"; "D"; "F"].

Definition fprange : list (string * string) :=
  [ ("85-90", "A+");
    ("75-85", "A");
    ("65-75", "B+");
    ("55-65", "B");
    ("45-55", "C+");
    ("35-45", "C");
    ("25-35", "D+");
    ("15-25", "D");
    ("0-15", "F") ].

(** Modelled from the spec: the range lookup [getKeyRange] of the package
    [get-key-range], which the source imports.  The keys of the table are
    [lower-upper]; the lookup returns the value of the first key, in the
    order of the table, whose bounds hold the number, both bounds included,
    and [undefined] when there is none.  A number on a bound that two keys
    share has the value of the key written first: in [fprange], written
    from the highest band down, the bands are [[lower, upper)] and the one
    at the top is closed at 90. *)
Definition in_band (key : string) (x : number) : bool :=
  match split "-" key with
  | [lower; upper] =>
      Number.leb (NumericLiteral.StringToNumber lower) x
      && Number.leb x (NumericLiteral.StringToNumber upper)
  | _ => false
  end.

Definition getKeyRange (table : list (string * string)) (x : number) : option string :=
  snd <$> List.find (fun kv => in_band (fst kv) x) table.

Definition fpToGrade (finalPercent : value) : option string :=
  getKeyRange fprange
    (parseFloat (Str (NumberString.toFixed (parseFloat finalPercent) 2))).

Definition calculate_credit_hours (course_name : string) : number :=
  let double_effect_courses := ["English 10/American History"; "English 9/World History"] in
  if existsb (String.eqb course_name) double_effect_courses then literal 2 0
  else if starts_with "I Service: " course_name || starts_with "IS: " course_name
  then literal 5 (-1)
  else literal 1 0.

Definition course_boost (course_name grade : string) : number :=
  if less_than (gradeToGPA grade) (Num (literal 18 (-1))) then literal 0 0
  else if starts_with "AP " course_name || starts_with "AT " course_name
  then literal 5 (-1)
  else literal 0 0.

(** The body of the loop of [calculate_gpa], on the pair
    [(courses_with_grades, sum)]. *)
Definition calculate_gpa_step (acc : number * number) (course : Course) : number * number :=
  let '(courses_with_grades, sum) := acc in
  if negb (strict_equal (gradeToGPA (grade course)) (Num (literal (-1) 0))) then
    let multiplier := calculate_credit_hours (name course) in
    (add courses_with_grades multiplier,
     add sum (times (Num multiplier)
                (plus (gradeToGPA (grade course))
                      (Num (course_boost (name course) (grade course))))))
  else acc.

Definition calculate_gpa (courses : list Course) : string :=
  let '(courses_with_grades, sum) :=
    fold_left calculate_gpa_step courses (literal 0 0, literal 0 0) in
  if Number.eqb courses_with_grades (literal 0 0) then "0.00"
  else NumberString.toFixed (div sum courses_with_grades) 2.

(** *** The final percent of a course page *)

(** The part of [s] before its first line terminator: what [.*] matches
    at the head of [s]. *)
Definition rest_of_line (s : string) : string := fst (span (fun c => negb (is_line_terminator c)) s).

(** The matches of [/(?=document\.write).*/g] in [s], from left to
    right.  A match starts where [document.write] is found and runs to the
    end of the line; the search goes on after the match.  [in_match] holds
    while the characters of the last match are passed. *)
Fixpoint matches_document_write (in_match : bool) (s : string) : list string :=
  match s with
  | EmptyString => []
  | String c s' =>
      if in_match then matches_document_write (negb (is_line_terminator c)) s'
      else if starts_with "document.write" s
      then rest_of_line s :: matches_document_write true s'
      else matches_document_write false s'
  end.

(** [html.match(/(?=document\.write).*/g)]: the array of the matches, or
    [null] when there is none. *)
Definition match_document_write (html : string) : option (list string) :=
  match matches_document_write false html with
  | [] => None
  | ms => Some ms
  end.

(** The longest prefix of [s] that stays on the line and ends with a
    closing bracket: what [.*\]] matches at the head of [s]. *)
Fixpoint up_to_last_bracket (s : string) : option string :=
  match s with
  | EmptyString => None
  | String c s' =>
      if is_line_terminator c then None
      else
        match up_to_last_bracket s' with
        | Some t => Some (String c t)
        | None => if Ascii.eqb c "]" then Some (String c EmptyString) else None
        end
  end.

(** [/\[.*\]/g.exec(s)]: the array with the leftmost match, or [null]. *)
Fixpoint exec_brackets (s : string) : option (list string) :=
  match s with
  | EmptyString => None
  | String c s' =>
      if Ascii.eqb c "[" then
        match up_to_last_bracket s' with
        | Some t => Some [String c t]
        | None => exec_brackets s'
        end
      else exec_brackets s'
  end.

(** [a[i]] where [a] is an array or [null]: reading a property of [null]
    throws. *)
Definition index_or_throw {A : Type} (a : option (list A)) (i : Z) : completion (option A) :=
  match a with
  | Some l => Return (index l i)
  | None => Throw TypeError
  end.

Definition value_of_string (s : option string) : value :=
  match s with
  | Some t => Str t
  | None => Undefined
  end.

(** [isNaN(t) ? -Infinity : parseFloat(t)] *)
Definition token_number (t : option string) : number :=
  if isNaN (value_of_string t) then NegInfinity
  else parseFloat (value_of_string t).

(** The body of the [try] block: the value assigned to [number]. *)
Definition extractFinalPercent_try (html : string) : completion number :=
  bind (index_or_throw (match_document_write html) 1) (fun current_string =>
  bind (index_or_throw (exec_brackets (ToString (value_of_string current_string))) 0)
    (fun current_string =>
  match current_string with
  | None => Throw TypeError
  | Some current_string =>
      let current_string := JSString.slice_1_m1 current_string in
      let temp := split ";" current_string in
      let len := Z.of_nat (length temp) in
      Return (Number.max (token_number (index temp (len - 2)))
                         (token_number (index temp (len - 1))))
  end)).

Definition extractFinalPercent (html : string) : completion (option number) :=
  match extractFinalPercent_try html with
  | Throw _ => Return None
  | Return number =>
      if strict_equal (Num number) (Num NegInfinity) then Return None
      else Return (Some number)
  end.

(** *** The assignments of a course page *)

(** [table[align=center] (the source leaves the bracket open, which the
    selector parser closes at the end of the text). *)
Definition centered_table : selector := mkSelector "table" (Some ("align", "center")) true.
Definition table_row : selector := mkSelector "tr" None false.
Definition table_cell : selector := mkSelector "td" None false.
Definition missing_icon : selector :=
  mkSelector "img" (Some ("src", "/images/icon_missing.gif")) false.

(** [cell?.innerText || ""] *)
Definition text_or_empty (cell : option element) : string :=
  match cell with
  | Some c => innerText c
  | None => ""
  end.

(** The body of the [forEach] callback, for the row [e] at index [i]. *)
Definition assignment_of_row (i : nat) (e : element) : Assignment :=
  let curr := querySelectorAll e table_cell in
  let assignment :=
    new_Assignment (text_or_empty (index curr 2))
      (text_or_empty (index curr (Z.of_nat (length curr) - 1))) i in
  match querySelector e missing_icon with
  | Some _ => addStatus assignment MISSING
  | None => assignment
  end.

Definition assignments (node : element) : completion (list Assignment) :=
  match querySelector node centered_table with
  | None => Throw TypeError
  | Some table =>
      Return (imap assignment_of_row (JS.slice_1_m1 (querySelectorAll table table_row)))
  end.

(** *** The saved grades *)

(** What the local storage of the browser holds under a key: the record
    of a user, with its [courses] when it has the property, or the name of
    the most recent user. *)
Inductive stored : Type :=
| UserData (courses : option (list CourseRecord))
| UserName (username : string).

Definition storage_get (store : gmap string stored) (key : string) : gmap string stored :=
  match store !! key with
  | Some v => {[ key := v ]}
  | None => ∅
  end.

(** [getSavedGrades] evaluates the identifier [output], which neither the
    function nor the module declares: it resolves in the global object.
    [global_output] is the object bound to it there, if any.  The result
    is the value of the promise, [None] for [undefined]; [Throw] is a
    rejected promise. *)
Definition getSavedGrades (global_output : option (gmap string stored))
    (store : gmap string stored) (username : string) :
    completion (option (list CourseRecord)) :=
  let courses : list Course := [] in
  let course_list := storage_get store ("USERDATA_" ++ username) in
  match global_output with
  | None => Throw (ReferenceError "output")
  | Some output =>
      match output !! ("USERDATA_" ++ username) with
      | None => Return None
      | Some (UserName _) => Return (Some [])
      | Some (UserData stored_courses) =>
          let course_list := default [] stored_courses in
          let courses := fold_left (fun courses course => (courses ++ [new_Course course])%list)
                           course_list courses in
          Return (Some course_list)
      end
  end.

Definition saveGradesLocally (store : gmap string stored) (username : string)
    (courses : list Course) : gmap string stored :=
  let course_list := fold_left (fun course_list c => (course_list ++ [toObject c])%list) courses [] in
  let user_data : gmap string stored :=
    <[ "most_recent_user" := UserName username ]>
      (<[ "USERDATA_" ++ username := UserData (Some course_list) ]> ∅) in
  user_data ∪ store.

(** The message that [analytics_message] hands to
    [browser.runtime.sendMessage]; [args_url] is [None] for [undefined]. *)
Record message : Type := mkMessage {
  message_action : string;
  args_url : option string;
  args_action : string
}.

(** [analytics_message(action_input, url)] on a page whose
    [window.location.href] is [location_href]: the messages sent so far,
    and then the new one.  [url] is [None] when the argument is left out;
    [url || ...] takes the right operand for [undefined] and for the empty
    string. *)
Definition analytics_message (location_href : string) (sent : list message)
    (action_input : string) (url : option string) : list message :=
  let href :=
    match url with
    | Some (String c u) => Some (String c u)
    | _ => index (split "?" location_href) 0
    end in
  (sent ++ [mkMessage "analytics_send" href action_input])%list.

End Helpers.

(** ** Notions used to state the properties *)

Module Notions.
Import Number JSString JS DOM Models Helpers.

(** The position of a number in the order of the comparison of numbers:
    the class of its sign, then its exponent, then its mantissa. *)
Definition rank (x : number) : Z * Z * Z :=
  match x with
  | S754_nan => (0, 0, 0)
  | S754_zero _ => (0, 0, 0)
  | S754_infinity s => (if s then -2 else 2, 0, 0)
  | S754_finite s m e => if s then (-1, - e, Zneg m) else (1, e, Zpos m)
  end.

Definition lt3 (a b : Z * Z * Z) : Prop :=
  a.1.1 < b.1.1 \/ (a.1.1 = b.1.1 /\ (a.1.2 < b.1.2 \/ (a.1.2 = b.1.2 /\ a.2 < b.2))).

Definition eq3 (a b : Z * Z * Z) : Prop := a.1.1 = b.1.1 /\ a.1.2 = b.1.2 /\ a.2 = b.2.

(** The band table of the final percents: lower bound, upper bound and
    letter grade. *)
Definition bands : list (Z * Z * string) :=
  [ (85, 90, "A+"); (75, 85, "A"); (65, 75, "B+"); (55, 65, "B"); (45, 55, "C+");
    (35, 45, "C"); (25, 35, "D+"); (15, 25, "D"); (0, 15, "F") ].

(** The test of the lookup on a band: both bounds are included. *)
Definition band_test (x : number) (b : Z * Z * string) : bool :=
  Number.leb (Number.of_Z b.1.1) x && Number.leb x (Number.of_Z b.1.2).

(** [x] lies in the band [[lower, upper)]. *)
Definition within (lower upper : Z) (x : number) : Prop :=
  Number.leb (Number.of_Z lower) x = true /\ Number.ltb x (Number.of_Z upper) = true.

(** The final percent parsed as a floating value and rounded to two
    decimal places. *)
Definition rounded (finalPercent : value) : number :=
  parseFloat (Str (NumberString.toFixed (parseFloat finalPercent) 2)).

(** The number of places of [s] where [marker] is found. *)
Fixpoint occurrences (marker s : string) : nat :=
  match s with
  | EmptyString => O
  | String _ s' => ((if starts_with marker s then 1 else 0) + occurrences marker s')%nat
  end.

Definition own_keys (o : object) : list string := map fst o.

(** The courses that [calculate_gpa] counts, their weight and their
    weighted grade points. *)
Definition counts (course : Course) : bool :=
  negb (strict_equal (gradeToGPA (grade course)) (Num (literal (-1) 0))).

Definition weight (course : Course) : number := calculate_credit_hours (name course).

Definition points (course : Course) : number :=
  times (Num (weight course))
    (plus (gradeToGPA (grade course)) (Num (course_boost (name course) (grade course)))).

(** The sum of [f] over the courses, accumulated from zero in the order
    of the list. *)
Definition total (f : Course -> number) (courses : list Course) : number :=
  fold_left (fun acc course => Number.add acc (f course)) courses (literal 0 0).

(** The final percent that the tokens of an embedded list give: the
    larger of the last two, unless it is negative infinity. *)
Definition percent_of_tokens (tokens : list string) : option number :=
  let v := Number.max (token_number (last (removelast tokens))) (token_number (last tokens)) in
  match v with
  | S754_infinity true => None
  | _ => Some v
  end.

(** The final percent that a line of the page gives: the tokens are those
    between the first opening bracket and the last closing bracket. *)
Definition percent_of_line (line : string) : option number :=
  match exec_brackets line with
  | Some (m :: _) => percent_of_tokens (split ";" (JSString.slice_1_m1 m))
  | _ => None
  end.

(** The cells of a row, and the rows that show the icon of a missing
    assignment. *)
Definition cells (row : element) : list element :=
  List.filter (fun e => String.eqb (tag_of e) "td") (descendants row).


(** [s] is made of decimal digits. *)
Definition all_digits (s : string) : Prop :=
  Forall (fun c => is_digit c = true) (list_ascii_of_string s).

(** [p * 2 ^ k] *)
Definition shl (p : positive) (k : nat) : positive := Nat.iter k xO p.

(** The number of value [a / 4]. *)
Definition quarters (a : Z) : number := binary_normalize prec emax a (-2) false.

(** The number of quarters in a number that is a multiple of a quarter. *)
Definition quarters_of (x : number) : Z :=
  match x with
  | S754_finite false m e => Z.shiftl (Zpos m) (e + 2)
  | _ => 0
  end.

(** A string of decimal digits with exactly two of them after the point. *)
Definition two_decimals (s : string) : Prop :=
  exists int frac, s = int ++ "." ++ frac
    /\ all_digits int /\ int <> "" /\ all_digits frac /\ String.length frac = 2%nat.

(** A course whose grade is a letter grade, or converts to -1. *)
Definition sane (c : Course) : Prop :=
  In (grade c) avaliableGrades \/ gradeToGPA (grade c) = Num (literal (-1) 0).

(** [name] begins with [p]. *)
Definition begins_with (p name : string) : Prop := exists rest, name = p ++ rest.

(** [c] occurs in [s]. *)
Definition has_char (c : ascii) (s : string) : Prop := In c (list_ascii_of_string s).

(** The sum of a list of integers. *)
Definition sumZ (l : list Z) : Z := fold_right Z.add 0 l.

(** The numbers of one sign that are not [NaN]. *)
Definition signed (s : bool) (x : number) : Prop :=
  match x with
  | S754_zero s' | S754_infinity s' | S754_finite s' _ _ => s' = s
  | S754_nan => False
  end.







End Notions.

(** ** Sample inputs *)

Module Samples.
Import Number JSString JS DOM Models Helpers.

Definition newline : string := String (ascii_of_nat 10) "".

(** A page whose second line with [document.write] embeds a list that
    ends with an empty token. *)
Definition page_empty_token : string :=
  "document.write(1)" ++ newline ++ "document.write('[85;]')".

(** A page with [document.write] on one line only. *)
Definition page_one_marker : string := "document.write('[85;90]')".

(** A page with two such lines, each with a list. *)
Definition page_two_markers : string :=
  "document.write('[1;2]')" ++ newline ++ "document.write('[3;85;90]')".

Definition course (name grade : string) : Course := mkCourse name "" grade None [].

Definition td (text : string) : element := Element "td" [] text [].
Definition tr (cells : list element) : element := Element "tr" [] "" cells.
Definition icon : element := Element "img" [("src", "/images/icon_missing.gif")] "" [].

Definition sample_rows : list element :=
  [ tr [td "1"; td "Quiz"; td "HW1"; td "9/10"];
    tr [td "2"; Element "td" [] "" [icon]; td "HW2"; td "--"];
    tr [td "only"] ].

Definition sample_table : element :=
  Element "table" [("align", "center")] ""
    (tr [td "header"] :: sample_rows ++ [tr [td "legend"]])%list.

Definition sample_page : element :=
  Element "body" [] "" [Element "table" [] "" [tr []]; sample_table].





End Samples.


(** * Properties *)

Import Number JSString JS DOM Models Helpers Notions Samples.

(** ** The order of numbers *)

Section NumberOrder.

Lemma compare_cont_Eq (p q : positive) : Pos.compare_cont Eq p q = (p ?= q)%positive.
Proof. reflexivity. Qed.

Ltac compare_cases :=
  rewrite ?compare_cont_Eq;
  repeat match goal with
    | |- context [Z.compare ?a ?b] => destruct (Z.compare_spec a b)
    | |- context [Pos.compare ?a ?b] => destruct (Pos.compare_spec a b)
    end.

(** The comparisons of numbers follow the order of the ranks. *)
Lemma ltb_rank (x y : number) :
  Number.ltb x y = true <-> is_nan x = false /\ is_nan y = false /\ lt3 (rank x) (rank y).
Proof.
  unfold Number.ltb, SFltb, SFcompare, lt3.
  destruct x as [sx|sx| |sx mx ex], y as [sy|sy| |sy my ey];
    try destruct sx; try destruct sy; simpl; compare_cases; simpl;
    (split; [intros Hc; try discriminate Hc; repeat split; lia
            | intros (Hx & Hy & Hc); try discriminate; try reflexivity; exfalso; lia]).
Qed.

Lemma leb_rank (x y : number) :
  Number.leb x y = true <->
  is_nan x = false /\ is_nan y = false /\ (lt3 (rank x) (rank y) \/ eq3 (rank x) (rank y)).
Proof.
  unfold Number.leb, SFleb, SFcompare, lt3, eq3.
  destruct x as [sx|sx| |sx mx ex], y as [sy|sy| |sy my ey];
    try destruct sx; try destruct sy; simpl; compare_cases; simpl;
    (split; [intros Hc; try discriminate Hc; repeat split; try reflexivity; lia
            | intros (Hx & Hy & Hc); try discriminate; try reflexivity; exfalso; lia]).
Qed.

Ltac by_rank x y z :=
  rewrite ?ltb_rank, ?leb_rank; unfold lt3, eq3;
  destruct (rank x) as [[? ?] ?], (rank y) as [[? ?] ?], (rank z) as [[? ?] ?]; simpl;
  intros (? & ? & ?) (? & ? & ?); repeat split; auto; lia.

Lemma ltb_or_leb (x y : number) :
  is_nan x = false -> is_nan y = false -> Number.ltb x y = true \/ Number.leb y x = true.
Proof.
  intros Hx Hy. rewrite ltb_rank, leb_rank. unfold lt3, eq3.
  destruct (rank x) as [[a b] c], (rank y) as [[a' b'] c']; simpl.
  assert (a < a' \/ a = a' /\ (b < b' \/ b = b' /\ c < c') \/
          (a' < a \/ a' = a /\ (b' < b \/ b' = b /\ c' < c)) \/
          (a' = a /\ b' = b /\ c' = c)) by lia.
  tauto.
Qed.

Lemma leb_ltb_trans (x y z : number) :
  Number.leb x y = true -> Number.ltb y z = true -> Number.ltb x z = true.
Proof. by_rank x y z. Qed.

Lemma ltb_leb_trans (x y z : number) :
  Number.ltb x y = true -> Number.leb y z = true -> Number.ltb x z = true.
Proof. by_rank x y z. Qed.

Lemma leb_trans (x y z : number) :
  Number.leb x y = true -> Number.leb y z = true -> Number.leb x z = true.
Proof. by_rank x y z. Qed.

End NumberOrder.

(** ** Strings *)

Section Strings.

Lemma append_cons (c : ascii) (s t : string) : String c s ++ t = String c (s ++ t).
Proof. reflexivity. Qed.

Lemma append_nil (t : string) : "" ++ t = t.
Proof. reflexivity. Qed.

Lemma string_app_assoc (s t u : string) : (s ++ t) ++ u = s ++ t ++ u.
Proof.
  induction s as [|c s IH]; [reflexivity|].
  rewrite !append_cons, IH. reflexivity.
Qed.

Lemma string_length_app (s t : string) :
  String.length (s ++ t) = (String.length s + String.length t)%nat.
Proof.
  induction s as [|c s IH]; [reflexivity|].
  rewrite append_cons. simpl. rewrite IH. reflexivity.
Qed.

Lemma take_length_app (s t : string) : JSString.take (String.length s) (s ++ t) = s.
Proof.
  induction s as [|c s IH]; [reflexivity|].
  rewrite append_cons. simpl. rewrite IH. reflexivity.
Qed.

Lemma slice_brackets (body : string) : JSString.slice_1_m1 ("[" ++ body ++ "]") = body.
Proof.
  unfold JSString.slice_1_m1. rewrite append_cons, append_nil. simpl.
  rewrite string_length_app. simpl.
  replace (String.length body + 1 - 1)%nat with (String.length body) by lia.
  apply take_length_app.
Qed.

Lemma split_app_sep (sep : ascii) (s t : string) :
  split sep (s ++ String sep t) = (split sep s ++ split sep t)%list.
Proof.
  induction s as [|c s IH].
  - rewrite append_nil. simpl. rewrite Ascii.eqb_refl. reflexivity.
  - rewrite append_cons. simpl. rewrite IH. destruct (Ascii.eqb c sep); [reflexivity|].
    destruct (split sep s) as [|u us] eqn:Hs; [|reflexivity].
    destruct s as [|a s]; simpl in Hs; [discriminate|].
    destruct (Ascii.eqb a sep); [discriminate|]. destruct (split sep s); discriminate.
Qed.

Lemma starts_with_begins (p name : string) :
  starts_with p name = true <-> begins_with p name.
Proof.
  unfold starts_with, begins_with. revert name.
  induction p as [|c p IH]; intros name; simpl.
  - split; [intros _; exists name; reflexivity | destruct name; reflexivity].
  - destruct name as [|d name]; simpl.
    + split; [discriminate | intros [rest H]; discriminate].
    + destruct (Ascii.ascii_dec c d) as [->|Hne].
      * rewrite IH. split; intros [rest H]; exists rest;
          [rewrite H; reflexivity | injection H; auto].
      * split; [discriminate | intros [rest H]; injection H; congruence].
Qed.

End Strings.

(** ** Arrays *)

Section Arrays.
Context {A : Type}.

Lemma index_last (l : list A) : index l (Z.of_nat (length l) - 1) = last l.
Proof.
  unfold index. destruct l as [|a l]; [reflexivity|].
  simpl length. destruct (Z.ltb_spec (Z.of_nat (S (length l)) - 1) 0); [lia|].
  replace (Z.to_nat (Z.of_nat (S (length l)) - 1)) with (length l) by lia.
  rewrite last_lookup. reflexivity.
Qed.

Lemma index_penultimate (l : list A) :
  index l (Z.of_nat (length l) - 2) = last (removelast l).
Proof.
  destruct (decide (l = [])) as [->|Hne]; [reflexivity|].
  destruct (exists_last Hne) as (l' & a & ->).
  rewrite removelast_last, length_app. simpl length.
  rewrite <- index_last. unfold index.
  replace (Z.of_nat (length l' + 1) - 2) with (Z.of_nat (length l') - 1) by lia.
  destruct (Z.ltb_spec (Z.of_nat (length l') - 1) 0); [reflexivity|].
  apply lookup_app_l. lia.
Qed.


Lemma find_unique (f : A -> bool) (l : list A) (i : nat) (a : A) :
  (forall j b, l !! j = Some b -> f b = true -> j = i) ->
  l !! i = Some a -> f a = true -> List.find f l = Some a.
Proof.
  revert i. induction l as [|c l IH]; intros i Hu Hi Ha; [discriminate|].
  simpl. destruct (f c) eqn:Hc.
  - specialize (Hu O c eq_refl Hc). subst i. simpl in Hi. congruence.
  - destruct i as [|i]; simpl in Hi; [congruence|].
    apply (IH i); auto. intros j b Hj Hb. specialize (Hu (S j) b Hj Hb). lia.
Qed.

Lemma find_related {B C : Type} (f : A -> bool) (g : B -> bool) (p : A -> C) (q : B -> C)
    (l : list A) (l' : list B) :
  Forall2 (fun a b => f a = g b /\ p a = q b) l l' ->
  p <$> List.find f l = q <$> List.find g l'.
Proof.
  induction 1 as [|a b l l' [Hf Hp] _ IH]; [reflexivity|].
  simpl. rewrite Hf. destruct (g b); simpl; congruence.
Qed.

End Arrays.

(** ** Letter grades *)

Section LetterGrades.

Lemma own_property_None (o : object) (key : string) :
  key ∉ own_keys o -> own_property o key = None.
Proof.
  unfold own_property, own_keys. induction o as [|[k v] o IH]; intros Hn; [reflexivity|].
  simpl in *. apply not_elem_of_cons in Hn as [Hk Ho].
  destruct (String.eqb_spec k key); [congruence|]. apply IH, Ho.
Qed.

(** The nine letter grades have the grade point average and the final
    percent of the tables. *)
Lemma grade_tables_canonical :
  map gradeToGPA avaliableGrades =
    map Num [literal 45 (-1); literal 40 (-1); literal 35 (-1); literal 30 (-1);
             literal 25 (-1); literal 20 (-1); literal 15 (-1); literal 10 (-1);
             literal 0 (-1)]
  /\ map gradeToFP avaliableGrades =
    map Num [literal 90 0; literal 80 0; literal 70 0; literal 60 0; literal 50 0;
             literal 40 0; literal 30 0; literal 20 0; literal 10 0].
Proof. split; vm_compute; reflexivity. Qed.

(** A string that is neither a letter grade nor the name of a property of
    [Object.prototype] converts to -1. *)
Lemma grade_tables_unlisted (grade : string) :
  grade ∉ avaliableGrades -> grade ∉ own_keys Object_prototype ->
  gradeToGPA grade = Num (literal (-1) 0) /\ gradeToFP grade = Num (literal (-1) 0).
Proof.
  intros H1 H2. unfold gradeToGPA, gradeToFP, has_property.
  rewrite !own_property_None; auto.
Qed.

Lemma grade_tables_no_normalization :
  Forall (fun grade => gradeToGPA grade = Num (literal (-1) 0)
                       /\ gradeToFP grade = Num (literal (-1) 0)) [""; "a+"; "A++"; " A"].
Proof. repeat constructor. Qed.

(** C2: the claim that [gradeToGPA] and [gradeToFP] return -1 for every
    string other than the nine letter grades fails for the names of the
    properties that the tables inherit: [grade in grade_gpa] holds for
    ["constructor"], and both functions return the inherited value, the
    function [Object], which is not the number -1. *)
Theorem grade_tables_inherited_key :
  gradeToGPA "constructor" = NativeFunction "Object"
  /\ gradeToFP "constructor" = NativeFunction "Object"
  /\ strict_equal (gradeToGPA "constructor") (Num (literal (-1) 0)) = false
  /\ strict_equal (gradeToFP "constructor") (Num (literal (-1) 0)) = false.
Proof. repeat split. Qed.

End LetterGrades.

(** ** Credit hours and the boost of a course *)

Section Weights.

(** C7: [calculate_credit_hours] returns 2 for the two double courses, 0.5
    for a name that begins with ["I Service: "] or ["IS: "], and 1 for
    every other name. *)
Theorem calculate_credit_hours_cases (course_name : string) :
  (course_name = "English 10/American History" \/ course_name = "English 9/World History" ->
   calculate_credit_hours course_name = literal 2 0)
  /\ (course_name <> "English 10/American History" ->
      course_name <> "English 9/World History" ->
      begins_with "I Service: " course_name \/ begins_with "IS: " course_name ->
      calculate_credit_hours course_name = literal 5 (-1))
  /\ (course_name <> "English 10/American History" ->
      course_name <> "English 9/World History" ->
      ~ begins_with "I Service: " course_name -> ~ begins_with "IS: " course_name ->
      calculate_credit_hours course_name = literal 1 0).
Proof.
  unfold calculate_credit_hours. simpl existsb.
  split; [|split].
  - intros [-> | ->]; reflexivity.
  - intros H1 H2 Hp.
    destruct (String.eqb_spec course_name "English 10/American History"); [contradiction|].
    destruct (String.eqb_spec course_name "English 9/World History"); [contradiction|].
    simpl. rewrite <- !starts_with_begins in Hp.
    apply orb_true_iff in Hp. rewrite Hp. reflexivity.
  - intros H1 H2 Hp Hq.
    destruct (String.eqb_spec course_name "English 10/American History"); [contradiction|].
    destruct (String.eqb_spec course_name "English 9/World History"); [contradiction|].
    simpl. rewrite <- starts_with_begins in Hp, Hq.
    apply not_true_is_false in Hp, Hq. rewrite Hp, Hq. reflexivity.
Qed.

Lemma begins_with_not (p name : string) : starts_with p name = false -> ~ begins_with p name.
Proof. intros H Hb. apply starts_with_begins in Hb. congruence. Qed.

Lemma calculate_credit_hours_cases_witness :
  calculate_credit_hours "English 10/American History" = literal 2 0
  /\ calculate_credit_hours "IS: Biology" = literal 5 (-1)
  /\ calculate_credit_hours "Algebra I" = literal 1 0.
Proof.
  split; [|split].
  - apply (proj1 (calculate_credit_hours_cases "English 10/American History")).
    left. reflexivity.
  - apply (proj1 (proj2 (calculate_credit_hours_cases "IS: Biology")));
      [discriminate|discriminate|].
    right. exists "Biology". reflexivity.
  - apply (proj2 (proj2 (calculate_credit_hours_cases "Algebra I")));
      [discriminate|discriminate|apply begins_with_not; reflexivity
      |apply begins_with_not; reflexivity].
Defined.

(** C6: [course_boost] returns 0 whenever [gradeToGPA(grade) < 1.8], which
    includes the grades that convert to -1; otherwise it returns 0.5 for a
    name that begins with ["AP "] or ["AT "], and 0 for another name. *)
Theorem course_boost_cases (course_name grade : string) :
  (less_than (gradeToGPA grade) (Num (literal 18 (-1))) = true ->
   course_boost course_name grade = literal 0 0)
  /\ (gradeToGPA grade = Num (literal (-1) 0) -> course_boost course_name grade = literal 0 0)
  /\ (less_than (gradeToGPA grade) (Num (literal 18 (-1))) = false ->
      begins_with "AP " course_name \/ begins_with "AT " course_name ->
      course_boost course_name grade = literal 5 (-1))
  /\ (less_than (gradeToGPA grade) (Num (literal 18 (-1))) = false ->
      ~ begins_with "AP " course_name -> ~ begins_with "AT " course_name ->
      course_boost course_name grade = literal 0 0)
  /\ course_boost "AP Calculus" "A" = literal 5 (-1)
  /\ course_boost "AP Calculus" "D" = literal 0 0
  /\ course_boost "Calculus" "A" = literal 0 0.
Proof.
  unfold course_boost.
  split; [|split; [|split; [|split]]].
  - intros ->. reflexivity.
  - intros ->. reflexivity.
  - intros -> Hp. rewrite <- !starts_with_begins in Hp.
    apply orb_true_iff in Hp. rewrite Hp. reflexivity.
  - intros -> Hp Hq. rewrite <- starts_with_begins in Hp, Hq.
    apply not_true_is_false in Hp, Hq. rewrite Hp, Hq. reflexivity.
  - repeat split.
Qed.

Lemma course_boost_cases_witness :
  course_boost "AP Calculus" "D" = literal 0 0
  /\ course_boost "AP Calculus" "" = literal 0 0
  /\ course_boost "AT Physics" "B" = literal 5 (-1)
  /\ course_boost "Calculus" "A" = literal 0 0.
Proof.
  split; [|split; [|split]].
  - apply (proj1 (course_boost_cases "AP Calculus" "D")). reflexivity.
  - apply (proj1 (proj2 (course_boost_cases "AP Calculus" ""))). reflexivity.
  - apply (proj1 (proj2 (proj2 (course_boost_cases "AT Physics" "B")))); [reflexivity|].
    right. exists "Physics". reflexivity.
  - apply (proj1 (proj2 (proj2 (proj2 (course_boost_cases "Calculus" "A")))));
      [reflexivity|apply begins_with_not; reflexivity|apply begins_with_not; reflexivity].
Defined.

(** Among the letter grades, the boost is withheld from [D+], [D] and
    [F]. *)
Lemma below_boost_threshold :
  List.filter (fun grade => less_than (gradeToGPA grade) (Num (literal 18 (-1))))
    avaliableGrades = ["D+"; "D"; "F"].
Proof. vm_compute. reflexivity. Qed.

End Weights.

(** ** The grade point average *)

Section GradePointAverage.

Lemma fold_step_filter (courses : list Course) (den sum : number) :
  fold_left calculate_gpa_step courses (den, sum) =
  (fold_left (fun acc c => Number.add acc (weight c)) (List.filter counts courses) den,
   fold_left (fun acc c => Number.add acc (points c)) (List.filter counts courses) sum).
Proof.
  revert den sum. induction courses as [|c cs IH]; intros den sum; [reflexivity|].
  simpl. fold (counts c). destruct (counts c); simpl; apply IH.
Qed.

(** The loop accumulates the weights and the weighted grade points of
    exactly the courses whose grade does not convert to -1; the result is
    ["0.00"] for a zero denominator, and else [toFixed(2)] of the
    quotient. *)
Lemma calculate_gpa_accumulates (courses : list Course) :
  calculate_gpa courses =
  let counted := List.filter counts courses in
  if Number.eqb (total weight counted) (literal 0 0) then "0.00"
  else NumberString.toFixed (Number.div (total points counted) (total weight counted)) 2.
Proof. unfold calculate_gpa. rewrite fold_step_filter. reflexivity. Qed.

(** X5: when every grade converts to -1, and so for the empty list, the
    result is ["0.00"]. *)
Lemma calculate_gpa_none_counted (courses : list Course) :
  Forall (fun c => gradeToGPA (grade c) = Num (literal (-1) 0)) courses ->
  calculate_gpa courses = "0.00".
Proof.
  intros H. rewrite calculate_gpa_accumulates.
  replace (List.filter counts courses) with (@nil Course); [reflexivity|].
  induction H as [|c cs Hc _ IH]; [reflexivity|].
  simpl. unfold counts at 1. rewrite Hc. exact IH.
Qed.

Lemma calculate_gpa_examples :
  calculate_gpa [] = "0.00"
  /\ calculate_gpa [course "Algebra I" "A"] = "4.00"
  /\ calculate_gpa [course "AP Calc" "A"] = "4.50"
  /\ calculate_gpa [course "Algebra I" ""; course "AP Calc" "INC"] = "0.00".
Proof. repeat split; vm_compute; reflexivity. Qed.

(** The quotient is the binary64 quotient, and [toFixed] rounds its exact
    value: a hundred courses of weight 0.5, one [D+] and the others [D],
    have the average 1.005, whose nearest number is below 1.005. *)
Lemma calculate_gpa_tie :
  calculate_gpa (course "IS: Lab" "D+" :: List.repeat (course "IS: Lab" "D") 99) = "1.00".
Proof. vm_compute. reflexivity. Qed.

(** C1: the claim that [calculate_gpa] returns, for every list of courses,
    ["0.00"] or the quotient with two decimal places fails for a grade that
    is the name of an inherited property of the grade table: the course
    counts, since [gradeToGPA] does not return -1 for it, its grade points
    are not a number, and the result is ["NaN"]. *)
Theorem calculate_gpa_inherited_grade :
  calculate_gpa [course "Algebra I" "constructor"] = "NaN".
Proof. vm_compute. reflexivity. Qed.

End GradePointAverage.

(** ** Rounding to two decimal places *)

Section Rounding.

Lemma decimal_value_acc (d : Decimal.uint) (acc : positive) :
  fold_left (fun a c => (10 * a + digit_value c)%N)
    (list_ascii_of_string (NilEmpty.string_of_uint d)) (Npos acc)
  = Npos (Pos.of_uint_acc d acc).
Proof.
  revert acc. induction d; intros acc; simpl; [reflexivity|..];
    match goal with
    | |- fold_left _ _ ?a = N.pos (Pos.of_uint_acc _ ?b) =>
        replace a with (Npos b) by (unfold digit_value; simpl; lia); apply IHd
    end.
Qed.

Lemma decimal_value_uint (d : Decimal.uint) :
  decimal_value (NilEmpty.string_of_uint d) = N.of_uint d.
Proof.
  unfold decimal_value, N.of_uint.
  induction d; simpl; [reflexivity|exact IHd|..];
    match goal with
    | |- fold_left _ _ ?a = N.pos (Pos.of_uint_acc _ ?b) =>
        replace a with (Npos b) by (unfold digit_value; simpl; lia); apply decimal_value_acc
    end.
Qed.

(** Reading the decimal digits of [n] gives [n] back. *)
Lemma decimal_value_of_N (n : N) : decimal_value (JSString.of_N n) = n.
Proof.
  unfold JSString.of_N, NilZero.string_of_uint.
  rewrite <- (DecimalN.Unsigned.of_to n) at 2.
  destruct (N.to_uint n) eqn:Hd; [reflexivity|rewrite <- decimal_value_uint; reflexivity..].
Qed.

Lemma all_digits_uint (d : Decimal.uint) : all_digits (NilEmpty.string_of_uint d).
Proof. unfold all_digits. induction d; simpl; constructor; auto. Qed.

Lemma all_digits_of_N (n : N) : all_digits (JSString.of_N n) /\ JSString.of_N n <> "".
Proof.
  unfold JSString.of_N, NilZero.string_of_uint.
  destruct (N.to_uint n) eqn:Hd;
    [split; [repeat constructor|discriminate]
    |split; [apply all_digits_uint|discriminate]..].
Qed.

Lemma span_digits (ds rest : string) :
  all_digits ds ->
  match rest with String c _ => is_digit c = false | EmptyString => True end ->
  span is_digit (ds ++ rest) = (ds, rest).
Proof.
  unfold all_digits. intros Hd Hr. induction ds as [|c ds IH].
  - simpl. destruct rest as [|c r]; [reflexivity|]. simpl. rewrite Hr. reflexivity.
  - inversion Hd as [|? ? Hc Hds]; subst.
    change (String c ds ++ rest) with (String c (ds ++ rest)).
    simpl. rewrite Hc, (IH Hds). reflexivity.
Qed.

Lemma all_digits_app (s t : string) : all_digits s -> all_digits t -> all_digits (s ++ t).
Proof.
  unfold all_digits. intros Hs Ht. induction s as [|c s IH]; [exact Ht|].
  inversion Hs; subst. change (String c s ++ t) with (String c (s ++ t)).
  simpl. constructor; auto.
Qed.

Lemma all_digits_repeat (n : nat) : all_digits (JSString.repeat "0" n).
Proof. unfold all_digits. induction n; simpl; constructor; auto. Qed.

Lemma all_digits_take (n : nat) (s : string) : all_digits s -> all_digits (JSString.take n s).
Proof.
  unfold all_digits. revert s. induction n as [|n IH]; intros s Hs; [constructor|].
  destruct s as [|c s]; [constructor|]. inversion Hs; subst. simpl. constructor; auto.
Qed.

Lemma all_digits_drop (n : nat) (s : string) : all_digits s -> all_digits (JSString.drop n s).
Proof.
  unfold all_digits. revert s. induction n as [|n IH]; intros s Hs; [destruct s; exact Hs|].
  destruct s as [|c s]; [constructor|]. inversion Hs; subst. simpl. auto.
Qed.

Lemma take_drop_string (n : nat) (s : string) : JSString.take n s ++ JSString.drop n s = s.
Proof.
  revert s. induction n as [|n IH]; intros s; [destruct s; reflexivity|].
  destruct s as [|c s]; [reflexivity|]. simpl.
  change (String c (JSString.take n s) ++ JSString.drop n s)
    with (String c (JSString.take n s ++ JSString.drop n s)).
  rewrite IH. reflexivity.
Qed.

Lemma length_drop_string (n : nat) (s : string) :
  String.length (JSString.drop n s) = (String.length s - n)%nat.
Proof.
  revert s. induction n as [|n IH]; intros s; [destruct s; simpl; lia|].
  destruct s as [|c s]; [reflexivity|]. simpl. apply IH.
Qed.

Lemma length_take_string (n : nat) (s : string) :
  String.length (JSString.take n s) = Nat.min n (String.length s).
Proof.
  revert s. induction n as [|n IH]; intros s; [reflexivity|].
  destruct s as [|c s]; [reflexivity|]. simpl. rewrite IH. reflexivity.
Qed.

Lemma length_repeat_string (c : ascii) (n : nat) : String.length (JSString.repeat c n) = n.
Proof. induction n; simpl; congruence. Qed.

Lemma decimal_value_zeros (n : nat) (s : string) :
  decimal_value (JSString.repeat "0" n ++ s) = decimal_value s.
Proof.
  unfold decimal_value. induction n as [|n IH]; [reflexivity|].
  change (JSString.repeat "0" (S n) ++ s) with (String "0" (JSString.repeat "0" n ++ s)).
  simpl. exact IH.
Qed.

Lemma digit_head (c : ascii) (s : string) :
  is_digit c = true ->
  trim_start (String c s) = String c s
  /\ NumericLiteral.sign (String c s) = (false, String c s)
  /\ starts_with "Infinity" (String c s) = false.
Proof.
  destruct c as [[] [] [] [] [] [] [] []]; intros H; try discriminate H; repeat split.
Qed.

Lemma span_digits_all (ds : string) : all_digits ds -> span is_digit ds = (ds, "").
Proof.
  unfold all_digits. induction ds as [|c ds IH]; intros Hd; [reflexivity|].
  inversion Hd as [|? ? Hc Hds]; subst. simpl. rewrite Hc, (IH Hds). reflexivity.
Qed.

Lemma unsigned_decimal_point (int frac : string) :
  all_digits int -> all_digits frac -> int <> "" ->
  NumericLiteral.unsigned_decimal (int ++ "." ++ frac)
  = Some (decimal_value (int ++ frac), - Z.of_nat (String.length frac), "").
Proof.
  intros Hi Hf Hne. unfold NumericLiteral.unsigned_decimal.
  change ("." ++ frac) with (String "." frac).
  rewrite (span_digits int (String "." frac) Hi eq_refl).
  rewrite (span_digits_all frac Hf).
  destruct int as [|c int]; [contradiction|]. reflexivity.
Qed.

(** [parseFloat] of digits, a point and digits. *)
Lemma parseFloat_point (neg : bool) (int frac : string) :
  all_digits int -> all_digits frac -> int <> "" ->
  NumericLiteral.parseFloat_string ((if neg then "-" else "") ++ int ++ "." ++ frac)
  = of_decimal neg (decimal_value (int ++ frac)) (- Z.of_nat (String.length frac)).
Proof.
  intros Hi Hf Hne.
  pose proof (unsigned_decimal_point int frac Hi Hf Hne) as Hu.
  destruct int as [|c int]; [contradiction|].
  assert (is_digit c = true) as Hc by (inversion Hi; assumption).
  change (String c int ++ "." ++ frac) with (String c (int ++ "." ++ frac)) in *.
  destruct (digit_head c (int ++ "." ++ frac) Hc) as (Ht & Hs & Hinf).
  unfold NumericLiteral.parseFloat_string, NumericLiteral.StrDecimalLiteral.
  destruct neg.
  - change ("-" ++ String c (int ++ "." ++ frac)) with (String "-" (String c (int ++ "." ++ frac))).
    change (trim_start (String "-" (String c (int ++ "." ++ frac))))
      with (String "-" (String c (int ++ "." ++ frac))).
    change (NumericLiteral.sign (String "-" (String c (int ++ "." ++ frac))))
      with (true, String c (int ++ "." ++ frac)).
    cbn iota beta. rewrite Hinf, Hu. reflexivity.
  - change ("" ++ String c (int ++ "." ++ frac)) with (String c (int ++ "." ++ frac)).
    rewrite Ht, Hs. cbn iota beta. rewrite Hinf, Hu. reflexivity.
Qed.

(** [parseFloat] reads the result of [toFixed(2)] as the hundredths [n]. *)
Lemma parseFloat_fixed_digits (neg : bool) (n : Z) :
  0 <= n ->
  NumericLiteral.parseFloat_string ((if neg then "-" else "") ++ NumberString.fixed_digits n 2)
  = of_decimal neg (Z.to_N n) (-2).
Proof.
  intros Hn. unfold NumberString.fixed_digits.
  assert (JSString.of_Z n = JSString.of_N (Z.to_N n)) as -> by (destruct n; [reflexivity..|lia]).
  destruct (all_digits_of_N (Z.to_N n)) as [Hd Hne].
  set (ds := JSString.of_N (Z.to_N n)) in *.
  set (padded := JSString.repeat "0" (3 - String.length ds) ++ ds).
  assert (all_digits padded) as Hp by (apply all_digits_app; [apply all_digits_repeat|exact Hd]).
  assert (3 <= String.length padded)%nat as Hlen.
  { unfold padded. rewrite string_length_app, length_repeat_string. lia. }
  set (k := (String.length padded - 2)%nat).
  assert (String.length (JSString.drop k padded) = 2%nat) as Hfrac
      by (rewrite length_drop_string; lia).
  rewrite (parseFloat_point neg (JSString.take k padded) (JSString.drop k padded)).
  - rewrite take_drop_string, Hfrac. unfold padded.
    rewrite decimal_value_zeros. unfold ds. rewrite decimal_value_of_N. reflexivity.
  - apply all_digits_take, Hp.
  - apply all_digits_drop, Hp.
  - intros Hk. apply (f_equal String.length) in Hk.
    rewrite length_take_string in Hk. simpl in Hk. lia.
Qed.

(** The integer of [toFixed(2)] is one nearest to a hundred times the value. *)
Lemma fixed_integer_nearest (m : positive) (e : Z) :
  let n := NumberString.fixed_integer m e 2 in
  0 <= n /\ 2 * Z.abs (n * NumberString.den e - 100 * NumberString.num m e) <= NumberString.den e.
Proof.
  unfold NumberString.fixed_integer, NumberString.den, NumberString.num.
  change (10 ^ Z.of_nat 2) with 100.
  destruct (Z.leb_spec 0 e) as [He|He]; simpl.
  - assert (0 < 2 ^ e) by (apply Z.pow_pos_nonneg; lia). split; [nia|].
    replace (Z.pos m * 2 ^ e * 100 * 1 - 100 * (Z.pos m * 2 ^ e)) with 0 by ring. simpl. lia.
  - assert (0 < 2 ^ (- e)) as Hd by (apply Z.pow_pos_nonneg; lia).
    replace (1 - e) with (Z.succ (- e)) by lia. rewrite Z.pow_succ_r by lia.
    set (d := 2 ^ (- e)) in *.
    pose proof (Z.div_mod (2 * Z.pos m * 100 + d) (2 * d) ltac:(lia)) as Hdm.
    pose proof (Z.mod_pos_bound (2 * Z.pos m * 100 + d) (2 * d) ltac:(lia)) as Hmod.
    set (n := (2 * Z.pos m * 100 + d) / (2 * d)) in *.
    split; [apply Z.div_pos; lia|]. nia.
Qed.

(** Below [10 ^ 21] the rounded value is the number nearest to [n / 100]. *)
Lemma rounded_nearest (v : value) (s : bool) (m : positive) (e : Z) :
  parseFloat v = S754_finite s m e ->
  NumberString.num m e < 10 ^ 21 * NumberString.den e ->
  rounded v = of_decimal s (Z.to_N (NumberString.fixed_integer m e 2)) (-2).
Proof.
  intros Hv Hlt. unfold rounded. rewrite Hv.
  unfold NumberString.toFixed.
  destruct (Z.leb_spec (10 ^ 21 * NumberString.den e) (NumberString.num m e)) as [Hge|_]; [lia|].
  unfold parseFloat. change (ToString (Str ?x)) with x.
  apply parseFloat_fixed_digits, fixed_integer_nearest.
Qed.

End Rounding.

(** ** Sums and quotients of quarters

    The weights and the grade points of the courses are multiples of a
    quarter: below [2 ^ 53] quarters their sums are exact, and the quotient
    of two of them is a number below [2 ^ 56]. *)

Section Quarters.

Lemma digits_shl (p : positive) (k : nat) :
  Zpos (digits2_pos (shl p k)) = Zpos (digits2_pos p) + Z.of_nat k.
Proof.
  induction k as [|k IH]; [simpl; lia|].
  change (shl p (S k)) with (xO (shl p k)). simpl digits2_pos. lia.
Qed.

Lemma Zpos_shl (p : positive) (k : nat) : Zpos (shl p k) = Zpos p * 2 ^ Z.of_nat k.
Proof.
  induction k as [|k IH]; [simpl; lia|].
  change (shl p (S k)) with (xO (shl p k)).
  rewrite Nat2Z.inj_succ, Z.pow_succ_r by lia. lia.
Qed.

Lemma iter_xO_shl (p d : positive) : Pos.iter xO p d = shl p (Pos.to_nat d).
Proof. unfold shl. apply Pos2Nat.inj_iter. Qed.

(** The iteration of the shifts, counted in unary. *)
Lemma iter_pos_nat {A : Type} (f : A -> A) (n : positive) (x : A) :
  SpecFloat.iter_pos f n x = Nat.iter (Pos.to_nat n) f x.
Proof.
  revert x. induction n as [n IH|n IH|]; intros x.
  - rewrite Pos2Nat.inj_xI. cbn [SpecFloat.iter_pos]. rewrite !IH.
    replace (2 * Pos.to_nat n)%nat with (Pos.to_nat n + Pos.to_nat n)%nat by lia.
    rewrite Nat.iter_succ_r, Nat.iter_add. reflexivity.
  - rewrite Pos2Nat.inj_xO. cbn [SpecFloat.iter_pos]. rewrite !IH.
    replace (2 * Pos.to_nat n)%nat with (Pos.to_nat n + Pos.to_nat n)%nat by lia.
    rewrite Nat.iter_add. reflexivity.
  - reflexivity.
Qed.

(** Shifting out bits that are zero loses nothing. *)
Lemma shr_exact (q : positive) (k : nat) :
  Nat.iter k shr_1 (Build_shr_record (Zpos (shl q k)) false false)
  = Build_shr_record (Zpos q) false false.
Proof.
  induction k as [|k IH]; [reflexivity|].
  rewrite Nat.iter_succ_r. change (shl q (S k)) with (xO (shl q k)). simpl. exact IH.
Qed.

Lemma fexp_normal (x : Z) : -1021 <= x -> fexp prec emax x = x - 53.
Proof. unfold fexp, SpecFloat.emin, prec, emax. lia. Qed.

Lemma shr_fexp_canonical (m : positive) (e : Z) :
  Zpos (digits2_pos m) = 53 -> -1074 <= e ->
  shr_fexp prec emax (Zpos m) e loc_Exact = (Build_shr_record (Zpos m) false false, e).
Proof.
  intros Hd He. unfold shr_fexp. simpl Zdigits2. rewrite Hd, fexp_normal by lia.
  replace (53 + e - 53 - e) with 0 by lia. reflexivity.
Qed.

(** A mantissa of 53 bits is left as it is. *)
Lemma round_canonical (s : bool) (m : positive) (e : Z) :
  Zpos (digits2_pos m) = 53 -> -1074 <= e <= 971 ->
  binary_round_aux prec emax s (Zpos m) e loc_Exact = S754_finite s m e.
Proof.
  intros Hd He. unfold binary_round_aux.
  rewrite shr_fexp_canonical by lia. simpl.
  rewrite shr_fexp_canonical by lia. simpl.
  destruct (Z.leb_spec e (emax - prec)) as [_|Hgt]; [reflexivity|].
  unfold emax, prec in Hgt. lia.
Qed.

Lemma shl_add (p : positive) (j k : nat) : shl (shl p j) k = shl p (j + k).
Proof. unfold shl. rewrite Nat.add_comm, Nat.iter_add. reflexivity. Qed.

(** Rounding [p * 2 ^ k * 2 ^ e] is exact when [p] has at most 53 bits. *)
Lemma round_exact (s : bool) (p : positive) (k : nat) (e : Z) :
  let d := Zpos (digits2_pos p) in
  d <= 53 -> -1074 <= e + Z.of_nat k + d - 53 <= 971 ->
  binary_round prec emax s (shl p k) e
  = S754_finite s (shl p (Z.to_nat (53 - d))) (e + Z.of_nat k + d - 53).
Proof.
  intros d Hd He. unfold binary_round.
  rewrite digits_shl. fold d. rewrite fexp_normal by lia.
  unfold shl_align.
  destruct (d + Z.of_nat k + e - 53 - e) as [|n|n] eqn:Hn.
  - (* exactly 53 digits *)
    assert (Z.of_nat k = 53 - d) as Hk by lia.
    rewrite round_canonical; [|rewrite digits_shl; fold d; lia|lia].
    rewrite <- Hk, Nat2Z.id. f_equal. lia.
  - (* more than 53 digits: the low bits are shifted out *)
    assert (shr_fexp prec emax (Zpos (shl p k)) e loc_Exact
            = (Build_shr_record (Zpos (shl p (Z.to_nat (53 - d)))) false false, e + Zpos n))
      as Hshr.
    { unfold shr_fexp. simpl Zdigits2.
      rewrite digits_shl. fold d. rewrite fexp_normal by lia.
      replace (d + Z.of_nat k + e - 53 - e) with (Zpos n) by lia.
      unfold shr_record_of_loc, shr. rewrite iter_pos_nat.
      replace k with ((Z.to_nat (53 - d)) + Pos.to_nat n)%nat at 1 by lia.
      rewrite <- shl_add, shr_exact. reflexivity. }
    unfold binary_round_aux. rewrite Hshr. cbn [loc_of_shr_record shr_m round_nearest_even].
    rewrite shr_fexp_canonical; [|rewrite digits_shl; fold d; lia|lia].
    cbn [shr_m]. destruct (Z.leb_spec (e + Zpos n) (emax - prec)) as [_|Hgt].
    + f_equal. lia.
    + unfold emax, prec in Hgt. lia.
  - (* less than 53 digits: the mantissa is shifted to the left *)
    rewrite iter_xO_shl, shl_add.
    rewrite round_canonical; [|rewrite digits_shl; fold d; lia|lia].
    f_equal; [f_equal|]; lia.
Qed.

(** [digits2_pos] counts the bits. *)
Lemma digits_spec (p : positive) :
  2 ^ (Zpos (digits2_pos p) - 1) <= Zpos p < 2 ^ Zpos (digits2_pos p).
Proof.
  induction p as [p IH|p IH|]; simpl digits2_pos; [| |simpl; lia];
    rewrite Pos2Z.inj_succ;
    replace (Z.succ (Zpos (digits2_pos p)) - 1) with (Z.succ (Zpos (digits2_pos p) - 1)) by lia;
    rewrite !Z.pow_succ_r by lia; lia.
Qed.

Lemma digits_le (p : positive) (n : Z) : 0 <= n -> Zpos p < 2 ^ n -> Zpos (digits2_pos p) <= n.
Proof.
  intros Hn Hp. destruct (Z.le_gt_cases (Zpos (digits2_pos p)) n) as [|Hgt]; [assumption|].
  pose proof (digits_spec p) as [Hlo _].
  assert (2 ^ n <= 2 ^ (Zpos (digits2_pos p) - 1)) by (apply Z.pow_le_mono_r; lia). lia.
Qed.

(** The representation of a positive number of quarters. *)
Lemma quarters_pos (p : positive) :
  let d := Zpos (digits2_pos p) in
  Zpos p < 2 ^ 53 ->
  quarters (Zpos p) = S754_finite false (shl p (Z.to_nat (53 - d))) (d - 55).
Proof.
  intros d Hp. assert (d <= 53) as Hd by (apply digits_le; lia).
  unfold quarters, binary_normalize.
  change p with (shl p 0) at 1. rewrite round_exact; fold d; [f_equal; lia|lia|simpl; lia].
Qed.

Lemma shl_align_fst (m : positive) (e ez : Z) :
  ez <= e -> fst (shl_align m e ez) = shl m (Z.to_nat (e - ez)).
Proof.
  intros He. unfold shl_align. destruct (ez - e) as [|n|n] eqn:Hn; try lia.
  - replace (e - ez) with 0 by lia. reflexivity.
  - simpl. rewrite iter_xO_shl. f_equal. lia.
Qed.

(** The sum of two numbers of quarters is exact below [2 ^ 53] quarters. *)
Lemma add_quarters (a b : Z) :
  0 <= a -> 0 <= b -> a + b < 2 ^ 53 ->
  Number.add (quarters a) (quarters b) = quarters (a + b).
Proof.
  intros Ha Hb Hab.
  destruct a as [|pa|pa];
    [destruct b as [|pb|pb]; [reflexivity
                           |change (0 + Zpos pb) with (Zpos pb) in *;
                            rewrite quarters_pos by lia; reflexivity
                           |lia]
    | |lia].
  destruct b as [|pb|pb]; [rewrite Z.add_0_r; rewrite quarters_pos by lia; reflexivity| |lia].
  change (Zpos pa + Zpos pb) with (Zpos (pa + pb)) in *.
  rewrite (quarters_pos pa), (quarters_pos pb), (quarters_pos (pa + pb)) by lia.
  set (da := Zpos (digits2_pos pa)). set (db := Zpos (digits2_pos pb)).
  set (dab := Zpos (digits2_pos (pa + pb))).
  assert (1 <= da <= 53) by (split; [unfold da; lia|apply digits_le; lia]).
  assert (1 <= db <= 53) by (split; [unfold db; lia|apply digits_le; lia]).
  assert (1 <= dab <= 53) by (split; [unfold dab; lia|apply digits_le; lia]).
  unfold Number.add, SFadd. set (ez := Z.min (da - 55) (db - 55)).
  rewrite !shl_align_fst by lia. rewrite !shl_add. unfold cond_Zopp.
  assert (Zpos (shl pa (Z.to_nat (53 - da) + Z.to_nat (da - 55 - ez)))
          + Zpos (shl pb (Z.to_nat (53 - db) + Z.to_nat (db - 55 - ez)))
          = Zpos (shl (pa + pb) (Z.to_nat (-2 - ez)))) as ->.
  { rewrite !Zpos_shl.
    replace (Z.of_nat (Z.to_nat (53 - da) + Z.to_nat (da - 55 - ez))) with (-2 - ez) by lia.
    replace (Z.of_nat (Z.to_nat (53 - db) + Z.to_nat (db - 55 - ez))) with (-2 - ez) by lia.
    rewrite Z2Nat.id by lia. lia. }
  unfold binary_normalize. rewrite round_exact; fold dab; [f_equal; lia|lia|lia].
Qed.

(** One normalisation of a mantissa of 53 or 54 bits. *)
Lemma shr_fexp_step (p : positive) (e : Z) (loc : location) :
  2 ^ 52 <= Zpos p < 2 ^ 54 -> -1074 <= e ->
  exists p' r s e',
    shr_fexp prec emax (Zpos p) e loc = (Build_shr_record (Zpos p') r s, e')
    /\ 2 ^ 52 <= Zpos p' < 2 ^ 53 /\ e <= e' <= e + 1.
Proof.
  intros Hp He. pose proof (digits_spec p) as Hd.
  assert (53 <= Zpos (digits2_pos p) <= 54) as Hrange.
  { split; [|apply digits_le; lia].
    destruct (Z.le_gt_cases 53 (Zpos (digits2_pos p))) as [|Hlt]; [assumption|].
    assert (2 ^ Zpos (digits2_pos p) <= 2 ^ 52) by (apply Z.pow_le_mono_r; lia). lia. }
  unfold shr_fexp. simpl Zdigits2. rewrite fexp_normal by lia.
  destruct (Z.eq_dec (Zpos (digits2_pos p)) 53) as [H53|H53].
  - rewrite H53 in *. replace (53 + e - 53 - e) with 0 by lia.
    destruct loc as [|[]]; simpl; do 4 eexists; (split; [reflexivity|lia]).
  - assert (Zpos (digits2_pos p) = 54) as H54 by lia. rewrite H54 in *.
    replace (54 + e - 53 - e) with 1 by lia.
    change (2 ^ (54 - 1)) with (2 ^ 53) in Hd.
    destruct p as [p'|p'|]; [| |simpl in Hd; lia];
      destruct loc as [|[]]; simpl; do 4 eexists; (split; [reflexivity|lia]).
Qed.

(** Rounding a quotient of 53 or 54 bits gives a finite number, with an
    exponent raised by two at most. *)
Lemma round_aux_bound (q e : Z) (loc : location) :
  2 ^ 52 <= q < 2 ^ 54 -> -1074 <= e <= 900 ->
  exists m e', binary_round_aux prec emax false q e loc = S754_finite false m e'
               /\ Zpos m < 2 ^ 53 /\ e' <= e + 2.
Proof.
  intros Hq He. destruct q as [|p|p]; try lia.
  destruct (shr_fexp_step p e loc Hq ltac:(lia)) as (p1 & r1 & s1 & e1 & H1 & Hp1 & He1).
  unfold binary_round_aux. rewrite H1. cbn [shr_m].
  assert (exists p2, round_nearest_even (Zpos p1) (loc_of_shr_record (Build_shr_record (Zpos p1) r1 s1))
                     = Zpos p2 /\ 2 ^ 52 <= Zpos p2 < 2 ^ 54) as (p2 & -> & Hp2).
  { destruct r1, s1; cbn [loc_of_shr_record round_nearest_even];
      try (exists p1; split; [reflexivity|lia]).
    - exists (p1 + 1)%positive. split; [reflexivity|lia].
    - destruct (Z.even (Zpos p1)); [exists p1|exists (p1 + 1)%positive];
        (split; [reflexivity|lia]). }
  destruct (shr_fexp_step p2 e1 loc_Exact Hp2 ltac:(lia)) as (p3 & r3 & s3 & e3 & H3 & Hp3 & He3).
  rewrite H3. cbn [shr_m].
  destruct (Z.leb_spec e3 (emax - prec)) as [_|Hgt]; [|unfold emax, prec in Hgt; lia].
  exists p3, e3. split; [reflexivity|lia].
Qed.

(** The quotient of two numbers of quarters is zero or a positive finite
    number below [2 ^ 56]. *)
Lemma div_quarters (n d : Z) :
  0 <= n < 2 ^ 53 -> 0 < d < 2 ^ 53 ->
  Number.div (quarters n) (quarters d) = S754_zero false
  \/ exists m e, Number.div (quarters n) (quarters d) = S754_finite false m e
                 /\ Zpos m < 2 ^ 53 /\ e <= 3.
Proof.
  intros Hn Hd. destruct d as [|pd|pd]; try lia. rewrite (quarters_pos pd) by lia.
  destruct n as [|pn|pn]; [left; reflexivity| |lia]. right.
  rewrite (quarters_pos pn) by lia.
  set (dn := Zpos (digits2_pos pn)). set (dd := Zpos (digits2_pos pd)).
  assert (1 <= dn <= 53) by (split; [unfold dn; lia|apply digits_le; lia]).
  assert (1 <= dd <= 53) by (split; [unfold dd; lia|apply digits_le; lia]).
  set (mn := shl pn (Z.to_nat (53 - dn))). set (md := shl pd (Z.to_nat (53 - dd))).
  assert (Zpos (digits2_pos mn) = 53) as Hmn by (unfold mn; rewrite digits_shl; fold dn; lia).
  assert (Zpos (digits2_pos md) = 53) as Hmd by (unfold md; rewrite digits_shl; fold dd; lia).
  pose proof (digits_spec mn) as Bn. pose proof (digits_spec md) as Bd.
  rewrite Hmn in Bn. rewrite Hmd in Bd. change (2 ^ (53 - 1)) with (2 ^ 52) in *.
  unfold Number.div, SFdiv, SFdiv_core_binary. simpl Zdigits2. rewrite Hmn, Hmd.
  rewrite fexp_normal by lia.
  replace (Z.min (53 + (dn - 55) - (53 + (dd - 55)) - 53) (dn - 55 - (dd - 55)))
    with (dn - dd - 53) by lia.
  replace (dn - 55 - (dd - 55) - (dn - dd - 53)) with 53 by lia.
  rewrite Z.shiftl_mul_pow2 by lia.
  pose proof (Z.div_eucl_eq (Zpos mn * 2 ^ 53) (Zpos md) ltac:(lia)) as Heq.
  pose proof (Z.mod_pos_bound (Zpos mn * 2 ^ 53) (Zpos md) ltac:(lia)) as Hmod.
  unfold Z.modulo in Hmod.
  destruct (Z.div_eucl (Zpos mn * 2 ^ 53) (Zpos md)) as [q r].
  assert (2 ^ 52 <= q < 2 ^ 54) as Hq by nia.
  destruct (round_aux_bound q (dn - dd - 53) (new_location (Zpos md) r) Hq ltac:(lia))
    as (m & e & Hr & Hm & He).
  cbn [xorb]. rewrite Hr. exists m, e. split; [reflexivity|lia].
Qed.

Lemma fixed_digits_two_decimals (n : Z) : 0 <= n -> two_decimals (NumberString.fixed_digits n 2).
Proof.
  intros Hn. unfold NumberString.fixed_digits.
  assert (JSString.of_Z n = JSString.of_N (Z.to_N n)) as -> by (destruct n; [reflexivity..|lia]).
  destruct (all_digits_of_N (Z.to_N n)) as [Hd Hne].
  set (ds := JSString.of_N (Z.to_N n)) in *.
  set (padded := JSString.repeat "0" (3 - String.length ds) ++ ds).
  assert (all_digits padded) as Hp by (apply all_digits_app; [apply all_digits_repeat|exact Hd]).
  assert (3 <= String.length padded)%nat as Hlen.
  { unfold padded. rewrite string_length_app, length_repeat_string. lia. }
  set (k := (String.length padded - 2)%nat).
  exists (JSString.take k padded), (JSString.drop k padded).
  split; [reflexivity|]. split; [apply all_digits_take, Hp|].
  split; [|split; [apply all_digits_drop, Hp|rewrite length_drop_string; lia]].
  intros Hk. apply (f_equal String.length) in Hk.
  rewrite length_take_string in Hk. simpl in Hk. lia.
Qed.

(** [toFixed(2)] of such a number has two decimal places. *)
Lemma toFixed_two_decimals (x : number) :
  x = S754_zero false \/ (exists m e, x = S754_finite false m e /\ Zpos m < 2 ^ 53 /\ e <= 3) ->
  two_decimals (NumberString.toFixed x 2).
Proof.
  intros [->|(m & e & -> & Hm & He)].
  - apply (fixed_digits_two_decimals 0). lia.
  - unfold NumberString.toFixed. rewrite append_nil.
    destruct (Z.leb_spec (10 ^ 21 * NumberString.den e) (NumberString.num m e)) as [Hge|_].
    + exfalso. unfold NumberString.den, NumberString.num in Hge.
      destruct (Z.leb_spec 0 e).
      * assert (2 ^ e <= 2 ^ 3) by (apply Z.pow_le_mono_r; lia).
        assert (0 < 2 ^ e) by (apply Z.pow_pos_nonneg; lia). nia.
      * assert (0 < 2 ^ (- e)) by (apply Z.pow_pos_nonneg; lia). nia.
    + apply fixed_digits_two_decimals, fixed_integer_nearest.
Qed.

End Quarters.

(** ** The grade point average of letter grades *)

Section TwoDecimals.

Ltac quarters_value :=
  match goal with
  | |- exists k, ?x = quarters k /\ _ =>
      let v := eval vm_compute in (quarters_of x) in
      exists v; split; [vm_compute; reflexivity|lia]
  end.

(** The weight of a course is 2, 4 or 8 quarters. *)
Lemma weight_quarters (c : Course) : exists k, weight c = quarters k /\ 2 <= k <= 8.
Proof.
  unfold weight, calculate_credit_hours.
  destruct (existsb _ _); [quarters_value|].
  destruct (_ || _); quarters_value.
Qed.

(** The grade points of a course with a letter grade are at most 40
    quarters. *)
Lemma points_quarters (c : Course) :
  In (grade c) avaliableGrades -> exists k, points c = quarters k /\ 0 <= k <= 40.
Proof.
  intros Hg. unfold points.
  set (boost := course_boost (name c) (grade c)).
  assert (boost = (if less_than (gradeToGPA (grade c)) (Num (literal 18 (-1))) then literal 0 0
                   else if starts_with "AP " (name c) || starts_with "AT " (name c)
                        then literal 5 (-1) else literal 0 0)) as Hb by reflexivity.
  clearbody boost. subst boost.
  unfold weight, calculate_credit_hours.
  destruct (starts_with "AP " (name c) || starts_with "AT " (name c));
    (destruct (existsb _ _); [|destruct (_ || _)]);
    unfold avaliableGrades in Hg; simpl in Hg;
    repeat (destruct Hg as [<-|Hg]; [quarters_value|]); destruct Hg.
Qed.

(** The accumulation of numbers of quarters is their exact sum. *)
Lemma total_quarters (f : Course -> number) (J K : Z) (l : list Course) (a : Z) :
  0 <= a -> 0 <= J <= K ->
  Forall (fun c => exists k, f c = quarters k /\ J <= k <= K) l ->
  a + K * Z.of_nat (length l) < 2 ^ 53 ->
  exists t, fold_left (fun acc c => Number.add acc (f c)) l (quarters a) = quarters t
            /\ a + J * Z.of_nat (length l) <= t <= a + K * Z.of_nat (length l).
Proof.
  intros Ha HJK Hl. revert a Ha. induction Hl as [|c l (k & Hk & Hbk) _ IH]; intros a Ha Hb.
  - exists a. split; [reflexivity|simpl; lia].
  - simpl fold_left. simpl length in *.
    rewrite Nat2Z.inj_succ, !Z.mul_succ_r in *.
    assert (0 <= K * Z.of_nat (length l)) by (apply Z.mul_nonneg_nonneg; lia).
    rewrite Hk, add_quarters by lia.
    destruct (IH (a + k) ltac:(lia) ltac:(lia)) as (t & Ht & Hbt).
    exists t. split; [exact Ht|lia].
Qed.

Lemma eqb_quarters_zero (t : Z) : 0 < t < 2 ^ 53 -> Number.eqb (quarters t) (literal 0 0) = false.
Proof.
  intros Ht. destruct t as [|p|p]; try lia. rewrite quarters_pos by lia. reflexivity.
Qed.

(** For fewer than [2 ^ 32] courses (the bound of an array) whose grades are
    letter grades or convert to -1, the result has exactly two decimal
    places. *)
Theorem calculate_gpa_two_decimals (courses : list Course) :
  Forall sane courses -> Z.of_nat (length courses) < 2 ^ 32 ->
  two_decimals (calculate_gpa courses).
Proof.
  intros Hsane Hlen'. rewrite calculate_gpa_accumulates. cbv zeta.
  set (counted := List.filter counts courses).
  assert (Forall (fun c => In (grade c) avaliableGrades) counted) as Hc.
  { apply List.Forall_forall. intros c [Hin Hcount]%filter_In.
    rewrite List.Forall_forall in Hsane. destruct (Hsane c Hin) as [Hg|Hg]; [exact Hg|].
    unfold counts in Hcount. rewrite Hg in Hcount. discriminate Hcount. }
  assert (Z.of_nat (length counted) <= Z.of_nat (length courses)) as Hle.
  { apply Nat2Z.inj_le. unfold counted. apply List.filter_length_le. }
  assert (Forall (fun c => exists k, weight c = quarters k /\ 2 <= k <= 8) counted) as Hfw.
  { apply List.Forall_forall. intros c _. apply weight_quarters. }
  assert (Forall (fun c => exists k, points c = quarters k /\ 0 <= k <= 40) counted) as Hfp.
  { eapply Forall_impl; [exact Hc|]. intros c Hg. apply points_quarters, Hg. }
  destruct (total_quarters weight 2 8 counted 0 ltac:(lia) ltac:(lia) Hfw ltac:(lia))
    as (tw & Hw & Hbw).
  destruct (total_quarters points 0 40 counted 0 ltac:(lia) ltac:(lia) Hfp ltac:(lia))
    as (tp & Hp & Hbp).
  unfold total. change (quarters 0) with (literal 0 0) in Hw, Hp.
  rewrite Hw, Hp.
  destruct counted as [|c0 counted'] eqn:Hcounted.
  - simpl in Hbw. replace tw with 0 by lia.
    change (Number.eqb (quarters 0) (literal 0 0)) with true. cbv iota.
    exists "0", "00". repeat split; try discriminate; repeat constructor.
  - simpl length in *. rewrite eqb_quarters_zero by lia.
    apply toFixed_two_decimals. apply div_quarters; lia.
Qed.

End TwoDecimals.

(** ** The letter grade of a final percent *)

Section FinalPercentBands.

Lemma getKeyRange_fprange (x : number) :
  getKeyRange fprange x = snd <$> List.find (band_test x) bands.
Proof.
  unfold getKeyRange. apply find_related.
  unfold fprange, bands. repeat constructor.
Qed.

Lemma ltb_leb (x y : number) : Number.ltb x y = true -> Number.leb x y = true.
Proof. rewrite ltb_rank, leb_rank. tauto. Qed.

Lemma ltb_not_leb (x y : number) : Number.ltb x y = true -> Number.leb y x = false.
Proof.
  intros Hlt. destruct (Number.leb y x) eqn:Hle; [|reflexivity].
  pose proof (leb_ltb_trans _ _ _ Hle Hlt) as Hc.
  apply ltb_rank in Hc as (_ & _ & Hc). unfold lt3 in Hc. lia.
Qed.

(** A band does not hold the numbers below its lower bound. *)
Lemma band_test_below (x : number) (b : Z * Z * string) :
  Number.ltb x (Number.of_Z b.1.1) = true -> band_test x b = false.
Proof. intros H. unfold band_test. rewrite (ltb_not_leb _ _ H). reflexivity. Qed.

(** A band holds the numbers from its lower bound to below its upper
    bound. *)
Lemma band_test_within (x : number) (b : Z * Z * string) :
  within b.1.1 b.1.2 x -> band_test x b = true.
Proof.
  intros [Hlo Hhi]. unfold band_test. rewrite Hlo, (ltb_leb _ _ Hhi). reflexivity.
Qed.

(** The lookup gives a number of the band [[lower, upper)] the grade of
    the band: the bands before it in the table begin at or above [upper]. *)
Lemma getKeyRange_within (x : number) (lower upper : Z) (g : string) :
  In (lower, upper, g) bands -> within lower upper x -> getKeyRange fprange x = Some g.
Proof.
  intros Hin Hw. rewrite getKeyRange_fprange.
  pose proof (band_test_within x (lower, upper, g) Hw) as Hthis.
  destruct Hw as [_ Hhi]. unfold bands in *. simpl in Hin.
  repeat (destruct Hin as [[= <- <- <-]|Hin];
          [ cbn [List.find];
            repeat match goal with
              | |- context [band_test x (?lo, ?hi, ?g')] =>
                  rewrite (band_test_below x (lo, hi, g'))
                    by (apply (ltb_leb_trans _ _ _ Hhi); vm_compute; reflexivity)
              end;
            rewrite Hthis; reflexivity |]).
  destruct Hin.
Qed.

(** The first band of the table includes its upper bound. *)
Lemma getKeyRange_top (x : number) :
  Number.leb (Number.of_Z 85) x = true -> Number.leb x (Number.of_Z 90) = true ->
  getKeyRange fprange x = Some "A+".
Proof.
  intros Hlo Hhi. rewrite getKeyRange_fprange. unfold bands. cbn [List.find].
  unfold band_test at 1. cbn [fst snd]. rewrite Hlo, Hhi. reflexivity.
Qed.

(** The bands cover [[0, 90)], and nothing else. *)
Lemma bands_cover (x : number) :
  within 0 90 x <->
  exists lower upper g, In (lower, upper, g) bands /\ within lower upper x.
Proof.
  split.
  - intros [H0 H90].
    assert (is_nan x = false) as Hx by (apply leb_rank in H0; tauto).
    assert (forall lo hi g,
              In (lo, hi, g) bands -> Number.ltb x (Number.of_Z hi) = true ->
              is_nan (Number.of_Z lo) = false ->
              Number.ltb x (Number.of_Z lo) = true
              \/ exists lower upper g, In (lower, upper, g) bands /\ within lower upper x)
      as Hstep.
    { intros lo hi g Hin Hhi Hlo.
      destruct (ltb_or_leb x (Number.of_Z lo) Hx Hlo) as [Hlt|Hle]; [left; exact Hlt|].
      right. exists lo, hi, g. split; [exact Hin|split; assumption]. }
    destruct (Hstep 85 90 "A+") as [H1|?]; [simpl; tauto|exact H90|reflexivity| |assumption].
    destruct (Hstep 75 85 "A") as [H2|?]; [simpl; tauto|exact H1|reflexivity| |assumption].
    destruct (Hstep 65 75 "B+") as [H3|?]; [simpl; tauto|exact H2|reflexivity| |assumption].
    destruct (Hstep 55 65 "B") as [H4|?]; [simpl; tauto|exact H3|reflexivity| |assumption].
    destruct (Hstep 45 55 "C+") as [H5|?]; [simpl; tauto|exact H4|reflexivity| |assumption].
    destruct (Hstep 35 45 "C") as [H6|?]; [simpl; tauto|exact H5|reflexivity| |assumption].
    destruct (Hstep 25 35 "D+") as [H7|?]; [simpl; tauto|exact H6|reflexivity| |assumption].
    destruct (Hstep 15 25 "D") as [H8|?]; [simpl; tauto|exact H7|reflexivity| |assumption].
    destruct (Hstep 0 15 "F") as [H9|?]; [simpl; tauto|exact H8|reflexivity| |assumption].
    pose proof (leb_ltb_trans _ _ _ H0 H9) as Hc. vm_compute in Hc. discriminate Hc.
  - intros (lo & hi & g & Hin & Hlo & Hhi).
    assert (Number.leb (Number.of_Z 0) (Number.of_Z lo) = true
            /\ Number.leb (Number.of_Z hi) (Number.of_Z 90) = true) as [H0 H90].
    { unfold bands in Hin. simpl in Hin.
      repeat (destruct Hin as [[= <- <- <-]|Hin]; [split; vm_compute; reflexivity|]).
      destruct Hin. }
    split; [eapply leb_trans; eauto | eapply ltb_leb_trans; eauto].
Qed.

(** Consecutive bands share a bound: from 90 down to 0 without a gap. *)
Lemma bands_contiguous :
  map (fun b : Z * Z * string => b.1.1) bands = [85; 75; 65; 55; 45; 35; 25; 15; 0]
  /\ map (fun b : Z * Z * string => b.1.2) bands = [90; 85; 75; 65; 55; 45; 35; 25; 15].
Proof. split; reflexivity. Qed.

(** C8: [fpToGrade] parses its input as a floating value, rounds it to two
    decimal places (the rounded value is the number nearest to [n / 100],
    where [n] is an integer nearest to a hundred times the parsed value) and
    returns the letter grade of the band [[lower, upper)] of the table that
    contains the rounded value (the band at the top also holds its upper
    bound, 90); the nine bands cover [[0, 90)]; [fpToGrade(87)] is ["A+"]
    and [fpToGrade(42)] is ["C"]. *)
Theorem fpToGrade_band (finalPercent : value) :
  (forall s m e,
      parseFloat finalPercent = S754_finite s m e ->
      NumberString.num m e < 10 ^ 21 * NumberString.den e ->
      let n := NumberString.fixed_integer m e 2 in
      0 <= n
      /\ 2 * Z.abs (n * NumberString.den e - 100 * NumberString.num m e) <= NumberString.den e
      /\ rounded finalPercent = of_decimal s (Z.to_N n) (-2))
  /\ (forall lower upper g,
        In (lower, upper, g) bands -> within lower upper (rounded finalPercent) ->
        fpToGrade finalPercent = Some g)
  /\ (Number.leb (Number.of_Z 85) (rounded finalPercent) = true ->
      Number.leb (rounded finalPercent) (Number.of_Z 90) = true ->
      fpToGrade finalPercent = Some "A+")
  /\ (within 0 90 (rounded finalPercent) <->
      exists lower upper g,
        In (lower, upper, g) bands /\ within lower upper (rounded finalPercent))
  /\ fpToGrade (Num (Number.of_Z 87)) = Some "A+"
  /\ fpToGrade (Num (Number.of_Z 42)) = Some "C".
Proof.
  split; [|split; [|split; [|split; [|split]]]].
  - intros s m e Hv Hlt n.
    destruct (fixed_integer_nearest m e) as [Hn Hnear].
    split; [exact Hn|]. split; [exact Hnear|]. apply rounded_nearest; assumption.
  - intros lower upper g. apply getKeyRange_within.
  - apply getKeyRange_top.
  - apply bands_cover.
  - vm_compute. reflexivity.
  - vm_compute. reflexivity.
Qed.

Lemma fpToGrade_band_witness :
  parseFloat (Str "84.996") = S754_finite false 5981061780124729 (-46)
  /\ rounded (Str "84.996") = of_decimal false 8500 (-2)
  /\ fpToGrade (Str "84.996") = Some "A+".
Proof.
  split; [reflexivity|]. split.
  - apply (proj1 (fpToGrade_band (Str "84.996")) false 5981061780124729%positive (-46));
      [reflexivity | vm_compute; reflexivity].
  - apply (proj1 (proj2 (fpToGrade_band (Str "84.996"))) 85 90 "A+").
    + left. reflexivity.
    + split; vm_compute; reflexivity.
Defined.

(** The bounds of the table: [fpToGrade(90)] is ["A+"], and so is
    [fpToGrade("89.995")], which rounds to 90; a bound that two bands share
    belongs to the upper one. *)
Lemma fpToGrade_bounds :
  fpToGrade (Num (Number.of_Z 90)) = Some "A+"
  /\ rounded (Str "89.995") = Number.of_Z 90
  /\ fpToGrade (Str "89.995") = Some "A+"
  /\ fpToGrade (Num (Number.of_Z 85)) = Some "A+"
  /\ fpToGrade (Num (Number.of_Z 15)) = Some "D"
  /\ fpToGrade (Num (Number.of_Z 0)) = Some "F".
Proof. repeat split; vm_compute; reflexivity. Qed.

End FinalPercentBands.

(** ** The final percent of a course page *)

Section FinalPercent.

(** There are no more matches than places where the marker is found. *)
Lemma matches_le_occurrences (in_match : bool) (s : string) :
  (length (matches_document_write in_match s) <= occurrences "document.write" s)%nat.
Proof.
  revert in_match. induction s as [|c s IH]; intros in_match; [simpl; lia|].
  cbn [matches_document_write occurrences].
  destruct in_match.
  - specialize (IH (negb (is_line_terminator c))). lia.
  - destruct (starts_with "document.write" (String c s)).
    + specialize (IH true). simpl. lia.
    + specialize (IH false). lia.
Qed.

Lemma strict_equal_NegInfinity (x : number) :
  strict_equal (Num x) (Num NegInfinity) =
  match x with S754_infinity true => true | _ => false end.
Proof. destruct x as [[]|[]| |[]]; reflexivity. Qed.

(** The function never throws: it returns what the second match of the
    marker gives, and [undefined] when there is no second match. *)
Lemma extractFinalPercent_by_line (html : string) :
  extractFinalPercent html =
  Return (match match_document_write html with
          | Some ms => match ms !! 1%nat with
                       | Some line => percent_of_line line
                       | None => None
                       end
          | None => None
          end).
Proof.
  unfold extractFinalPercent, extractFinalPercent_try.
  destruct (match_document_write html) as [ms|]; [|reflexivity].
  cbn [index_or_throw bind]. change (index ms 1) with (ms !! 1%nat).
  destruct (ms !! 1%nat) as [line|]; [|reflexivity].
  cbn [value_of_string]. change (ToString (Str line)) with line.
  unfold percent_of_line.
  destruct (exec_brackets line) as [[|m l]|]; try reflexivity.
  cbn [index_or_throw bind]. change (index (m :: l) 0) with (Some m).
  cbn iota beta. rewrite index_last, index_penultimate, strict_equal_NegInfinity.
  unfold percent_of_tokens.
  destruct (Number.max _ _) as [[]|[]| |[]]; reflexivity.
Qed.

Lemma extractFinalPercent_never_throws (html : string) :
  exists r, extractFinalPercent html = Return r.
Proof. rewrite extractFinalPercent_by_line. eexists; reflexivity. Qed.

Lemma extractFinalPercent_few_markers (html : string) :
  (occurrences "document.write" html < 2)%nat -> extractFinalPercent html = Return None.
Proof.
  intros Hocc. rewrite extractFinalPercent_by_line. unfold match_document_write.
  pose proof (matches_le_occurrences false html) as Hle.
  destruct (matches_document_write false html) as [|m ms] eqn:Hm; [reflexivity|].
  rewrite lookup_ge_None_2; [reflexivity|lia].
Qed.

Lemma percent_of_tokens_85_90 (tokens : list string) :
  percent_of_tokens (tokens ++ ["85"; "90"])%list = Some (Number.of_Z 90).
Proof.
  unfold percent_of_tokens.
  replace (tokens ++ ["85"; "90"])%list with ((tokens ++ ["85"]) ++ ["90"])%list
    by (rewrite <- app_assoc; reflexivity).
  rewrite removelast_last, !last_snoc. vm_compute. reflexivity.
Qed.

(** A list that ends in [;85;90] gives 90. *)
Lemma extractFinalPercent_85_90 (html : string) (ms : list string) (line body : string) :
  match_document_write html = Some ms -> ms !! 1%nat = Some line ->
  exec_brackets line = Some ["[" ++ body ++ ";85;90]"] ->
  extractFinalPercent html = Return (Some (Number.of_Z 90)).
Proof.
  intros Hm Hl He. rewrite extractFinalPercent_by_line, Hm, Hl.
  unfold percent_of_line. rewrite He.
  change (body ++ ";85;90]") with (body ++ ";85;90" ++ "]").
  rewrite <- (string_app_assoc body ";85;90" "]"), slice_brackets, split_app_sep.
  change (split ";" "85;90") with ["85"; "90"].
  rewrite percent_of_tokens_85_90. reflexivity.
Qed.

(** C5: the claim that [extractFinalPercent] returns the larger of the
    last two tokens, a token that is not numeric counting as negative
    infinity, or else [undefined], fails for an empty token: [isNaN("")] is
    false, [parseFloat("")] is [NaN], and the function returns [NaN] for
    the list [[85;]], neither 85 nor [undefined]. *)
Theorem extractFinalPercent_empty_token :
  match_document_write page_empty_token
    = Some ["document.write(1)"; "document.write('[85;]')"]
  /\ exec_brackets "document.write('[85;]')" = Some ["[85;]"]
  /\ split ";" (JSString.slice_1_m1 "[85;]") = ["85"; ""]
  /\ token_number (Some "") = NaN
  /\ extractFinalPercent page_empty_token = Return (Some NaN).
Proof. repeat split; vm_compute; reflexivity. Qed.

(** C10: [extractFinalPercent] reads the element of index 1 of the list of
    the matches of the marker, the second match and not the first; a page
    where the marker is found less than twice gives [undefined], even when
    the first match has a well-formed list. *)
Theorem extractFinalPercent_second_match (html : string) :
  (forall ms, match_document_write html = Some ms ->
              extractFinalPercent html =
              Return (match ms !! 1%nat with
                      | Some line => percent_of_line line
                      | None => None
                      end))
  /\ ((occurrences "document.write" html < 2)%nat ->
      extractFinalPercent html = Return None)
  /\ percent_of_line page_one_marker = Some (Number.of_Z 90)
  /\ extractFinalPercent page_one_marker = Return None
  /\ extractFinalPercent page_two_markers = Return (Some (Number.of_Z 90)).
Proof.
  split; [|split; [|repeat split; vm_compute; reflexivity]].
  - intros ms Hm. rewrite extractFinalPercent_by_line, Hm. reflexivity.
  - apply extractFinalPercent_few_markers.
Qed.

Lemma extractFinalPercent_second_match_witness :
  extractFinalPercent page_two_markers
    = Return (percent_of_line "document.write('[3;85;90]')")
  /\ (occurrences "document.write" page_one_marker < 2)%nat
  /\ extractFinalPercent page_one_marker = Return None.
Proof.
  split; [|split].
  - apply (proj1 (extractFinalPercent_second_match page_two_markers)
             ["document.write('[1;2]')"; "document.write('[3;85;90]')"]).
    reflexivity.
  - vm_compute. lia.
  - apply (proj1 (proj2 (extractFinalPercent_second_match page_one_marker))).
    vm_compute. lia.
Defined.

End FinalPercent.

(** ** The assignments of a course page *)

Section Assignments.

Lemma querySelectorAll_cells (row : element) :
  querySelectorAll row table_cell = cells row.
Proof.
  unfold querySelectorAll, cells. apply List.filter_ext.
  intros e. unfold selects. simpl. apply andb_true_r.
Qed.















Lemma assignments_sample :
  assignments sample_page =
  Return [ mkAssignment "HW1" "9/10" 0 [];
           mkAssignment "HW2" "--" 1 [MISSING];
           mkAssignment "" "only" 2 [] ].
Proof. reflexivity. Qed.

End Assignments.

(** ** The saved grades *)

Section SavedGrades.

(** C3: the claim that [getSavedGrades] returns, after [saveGradesLocally],
    the courses that were saved fails: [getSavedGrades] reads the storage
    into [course_list] and then evaluates the identifier [output], which is
    not declared; whatever was saved, the promise is rejected with a
    [ReferenceError]. *)
Theorem getSavedGrades_after_save (store : gmap string stored) (username : string)
    (courses : list Course) :
  getSavedGrades None (saveGradesLocally store username courses) username
  = Throw (ReferenceError "output").
Proof. reflexivity. Qed.

(** C4: the claim that [getSavedGrades] returns an empty sequence without
    a record and the stored courses as [Course] entities otherwise, without
    raising an error, fails: with [output] undeclared the promise is
    rejected for every storage and every user. *)
Theorem getSavedGrades_throws (store : gmap string stored) (username : string) :
  getSavedGrades None store username = Throw (ReferenceError "output").
Proof. reflexivity. Qed.

(** Were [output] bound to the object read from the storage, a user
    without a record would get [undefined], and not an empty sequence. *)
Lemma getSavedGrades_no_record (store : gmap string stored) (username : string) :
  store !! ("USERDATA_" ++ username) = None ->
  getSavedGrades (Some (storage_get store ("USERDATA_" ++ username))) store username
  = Return None.
Proof.
  intros H. unfold getSavedGrades, storage_get. rewrite H, lookup_empty. reflexivity.
Qed.

(** With the same binding, the saved records come back in their order,
    as the stored objects. *)
Lemma getSavedGrades_bound_after_save (store : gmap string stored) (username : string)
    (courses : list Course) :
  let store' := saveGradesLocally store username courses in
  getSavedGrades (Some (storage_get store' ("USERDATA_" ++ username))) store' username
  = Return (Some (map toObject courses)).
Proof.
  assert (forall acc, fold_left (fun l c => (l ++ [toObject c])%list) courses acc
                      = (acc ++ map toObject courses)%list) as Hfold.
  { induction courses as [|c cs IH]; intros acc; simpl; [rewrite app_nil_r; reflexivity|].
    rewrite IH, <- app_assoc. reflexivity. }
  intros store'. unfold getSavedGrades, storage_get.
  assert (store' !! ("USERDATA_" ++ username) = Some (UserData (Some (map toObject courses))))
    as Hl.
  { unfold store', saveGradesLocally. rewrite Hfold. simpl.
    apply lookup_union_Some_l. rewrite lookup_insert_ne by discriminate.
    apply lookup_insert_eq. }
  rewrite Hl, lookup_singleton_eq. reflexivity.
Qed.

End SavedGrades.

(** ** The range and the order of the grade point average *)

Section GradePointAverageRange.

Ltac sane_courses :=
  repeat first
    [ apply List.Forall_nil
    | apply List.Forall_cons; [first [right; reflexivity | left; simpl; tauto]|] ].

(** X3: a course whose grade converts to -1 has no effect on the grade
    point average, wherever it stands in the list. *)
Theorem calculate_gpa_skips_unrecognized (before after : list Course) (c : Course) :
  gradeToGPA (grade c) = Num (literal (-1) 0) ->
  calculate_gpa (before ++ c :: after) = calculate_gpa (before ++ after).
Proof.
  intros Hc. assert (counts c = false) as Hf by (unfold counts; rewrite Hc; reflexivity).
  rewrite !calculate_gpa_accumulates, !List.filter_app. simpl List.filter.
  rewrite Hf. reflexivity.
Qed.

Lemma calculate_gpa_skips_unrecognized_witness :
  calculate_gpa ([course "Algebra I" "A"] ++ course "Band" "P" :: [course "AP Calc" "B"])
  = calculate_gpa ([course "Algebra I" "A"] ++ [course "AP Calc" "B"]).
Proof.
  apply (calculate_gpa_skips_unrecognized [course "Algebra I" "A"] [course "AP Calc" "B"]
           (course "Band" "P")).
  reflexivity.
Defined.

Lemma calculate_gpa_none_counted_witness :
  calculate_gpa [course "Band" "P"; course "Gym" ""] = "0.00".
Proof.
  apply (calculate_gpa_none_counted [course "Band" "P"; course "Gym" ""]).
  repeat constructor.
Defined.

(** X4: for one course with a letter grade the result is the grade
    points of the grade plus the boost of the course, with two decimal
    places: the credit hours of the course cancel. *)
Theorem calculate_gpa_single_course (c : Course) :
  In (grade c) avaliableGrades ->
  calculate_gpa [c]
  = NumberString.toFixed
      (ToNumber (plus (gradeToGPA (grade c)) (Num (course_boost (name c) (grade c))))) 2.
Proof.
  intros Hg. unfold calculate_gpa, calculate_gpa_step, course_boost, calculate_credit_hours.
  cbn [fold_left].
  destruct (starts_with "AP " (name c) || starts_with "AT " (name c));
    (destruct (existsb _ _); [|destruct (_ || _)]);
    unfold avaliableGrades in Hg; simpl in Hg;
    repeat (destruct Hg as [<-|Hg]; [vm_compute; reflexivity|]); destruct Hg.
Qed.

Lemma calculate_gpa_single_course_witness :
  calculate_gpa [course "AP Calc" "B"]
  = NumberString.toFixed
      (ToNumber (plus (gradeToGPA "B") (Num (course_boost "AP Calc" "B")))) 2.
Proof.
  apply (calculate_gpa_single_course (course "AP Calc" "B")). simpl. tauto.
Defined.

Lemma quarters_of_quarters (k : Z) : 0 <= k < 2 ^ 53 -> quarters_of (quarters k) = k.
Proof.
  intros Hk. destruct k as [|p|p]; [reflexivity| |lia].
  rewrite quarters_pos by lia. unfold quarters_of.
  set (d := Zpos (digits2_pos p)).
  assert (1 <= d <= 53) by (split; [unfold d; lia|apply digits_le; lia]).
  replace (d - 55 + 2) with (- (53 - d)) by lia.
  rewrite Z.shiftl_opp_r, Z.shiftr_div_pow2 by lia.
  rewrite Zpos_shl, Z2Nat.id by lia. apply Z.div_mul.
  apply Z.pow_nonzero; lia.
Qed.

Lemma total_exact (f : Course -> number) (K : Z) (l : list Course) (a : Z) :
  0 <= a -> 0 <= K ->
  Forall (fun c => exists k, f c = quarters k /\ 0 <= k <= K) l ->
  a + K * Z.of_nat (length l) < 2 ^ 53 ->
  fold_left (fun acc c => Number.add acc (f c)) l (quarters a)
  = quarters (a + sumZ (map (fun c => quarters_of (f c)) l)).
Proof.
  intros Ha HK Hl. revert a Ha. induction Hl as [|c l (k & Hk & Hbk) _ IH]; intros a Ha Hb.
  - simpl. rewrite Z.add_0_r. reflexivity.
  - simpl fold_left. simpl length in Hb.
    rewrite Nat2Z.inj_succ, Z.mul_succ_r in Hb.
    assert (0 <= K * Z.of_nat (length l)) by (apply Z.mul_nonneg_nonneg; lia).
    rewrite Hk, add_quarters by lia. rewrite IH by lia.
    simpl. rewrite Hk, quarters_of_quarters by lia. f_equal. lia.
Qed.

Lemma sumZ_Permutation (l l' : list Z) : Permutation l l' -> sumZ l = sumZ l'.
Proof. induction 1; simpl in *; lia. Qed.

Lemma filter_Permutation_bool {A : Type} (f : A -> bool) (l l' : list A) :
  Permutation l l' -> Permutation (List.filter f l) (List.filter f l').
Proof.
  induction 1 as [|x l l' _ IH|x y l|l l' l'' _ IH1 _ IH2]; simpl.
  - constructor.
  - destruct (f x); [constructor|]; exact IH.
  - destruct (f x), (f y); try reflexivity. constructor.
  - etransitivity; eassumption.
Qed.

Lemma counted_letter_grades (courses : list Course) :
  Forall sane courses ->
  Forall (fun c => In (grade c) avaliableGrades) (List.filter counts courses).
Proof.
  intros Hsane. apply List.Forall_forall. intros c [Hin Hcount]%filter_In.
  rewrite List.Forall_forall in Hsane. destruct (Hsane c Hin) as [Hg|Hg]; [exact Hg|].
  unfold counts in Hcount. rewrite Hg in Hcount. discriminate Hcount.
Qed.

Lemma totals_exact (courses : list Course) :
  Forall sane courses -> Z.of_nat (length courses) < 2 ^ 32 ->
  let counted := List.filter counts courses in
  total weight counted = quarters (sumZ (map (fun c => quarters_of (weight c)) counted))
  /\ total points counted = quarters (sumZ (map (fun c => quarters_of (points c)) counted)).
Proof.
  intros Hsane Hlen counted.
  pose proof (counted_letter_grades courses Hsane) as Hc. fold counted in Hc.
  assert (Z.of_nat (length counted) <= Z.of_nat (length courses)) as Hle.
  { apply Nat2Z.inj_le. unfold counted. apply List.filter_length_le. }
  assert (Forall (fun c => exists k, weight c = quarters k /\ 0 <= k <= 8) counted) as Hfw.
  { apply List.Forall_forall. intros c _.
    destruct (weight_quarters c) as (k & Hk & Hb). exists k. split; [exact Hk|lia]. }
  assert (Forall (fun c => exists k, points c = quarters k /\ 0 <= k <= 40) counted) as Hfp.
  { eapply Forall_impl; [exact Hc|]. intros c Hg. apply points_quarters, Hg. }
  unfold total. change (literal 0 0) with (quarters 0). split.
  - rewrite (total_exact weight 8 counted 0 ltac:(lia) ltac:(lia) Hfw ltac:(lia)). reflexivity.
  - rewrite (total_exact points 40 counted 0 ltac:(lia) ltac:(lia) Hfp ltac:(lia)). reflexivity.
Qed.

(** X2: for fewer than [2 ^ 32] courses whose grades are letter grades or
    convert to -1, the result does not depend on the order of the courses:
    both sums are exact, whatever the order of the additions. *)
Theorem calculate_gpa_order_irrelevant (courses courses' : list Course) :
  Permutation courses courses' ->
  Forall sane courses -> Z.of_nat (length courses) < 2 ^ 32 ->
  calculate_gpa courses = calculate_gpa courses'.
Proof.
  intros Hperm Hsane Hlen.
  assert (Forall sane courses') as Hsane' by (rewrite <- Hperm; exact Hsane).
  assert (Z.of_nat (length courses') < 2 ^ 32) as Hlen'
      by (rewrite <- (Permutation_length Hperm); exact Hlen).
  rewrite !calculate_gpa_accumulates. cbv zeta.
  destruct (totals_exact courses Hsane Hlen) as [-> ->].
  destruct (totals_exact courses' Hsane' Hlen') as [-> ->].
  pose proof (filter_Permutation_bool counts _ _ Hperm) as Hf.
  rewrite (sumZ_Permutation _ _ (Permutation_map (fun c => quarters_of (weight c)) Hf)).
  rewrite (sumZ_Permutation _ _ (Permutation_map (fun c => quarters_of (points c)) Hf)).
  reflexivity.
Qed.

Lemma calculate_gpa_order_irrelevant_witness :
  calculate_gpa [course "AP Calc" "A+"; course "IS: Lab" "C"; course "Band" "P"]
  = calculate_gpa [course "Band" "P"; course "IS: Lab" "C"; course "AP Calc" "A+"].
Proof.
  apply (calculate_gpa_order_irrelevant
           [course "AP Calc" "A+"; course "IS: Lab" "C"; course "Band" "P"]
           [course "Band" "P"; course "IS: Lab" "C"; course "AP Calc" "A+"]).
  - exact (Permutation_rev [course "AP Calc" "A+"; course "IS: Lab" "C"; course "Band" "P"]).
  - sane_courses.
  - reflexivity.
Defined.

Lemma shr_fexp_floor (p : positive) (e : Z) (loc : location) :
  2 ^ 52 <= Zpos p < 2 ^ 54 -> -1074 <= e ->
  exists p' r s e',
    shr_fexp prec emax (Zpos p) e loc = (Build_shr_record (Zpos p') r s, e')
    /\ 2 ^ 52 <= Zpos p' < 2 ^ 53
    /\ ((e' = e /\ p' = p) \/ (e' = e + 1 /\ 2 * Zpos p' <= Zpos p)).
Proof.
  intros Hp He. pose proof (digits_spec p) as Hd.
  assert (53 <= Zpos (digits2_pos p) <= 54) as Hrange.
  { split; [|apply digits_le; lia].
    destruct (Z.le_gt_cases 53 (Zpos (digits2_pos p))) as [|Hlt]; [assumption|].
    assert (2 ^ Zpos (digits2_pos p) <= 2 ^ 52) by (apply Z.pow_le_mono_r; lia). lia. }
  unfold shr_fexp. simpl Zdigits2. rewrite fexp_normal by lia.
  destruct (Z.eq_dec (Zpos (digits2_pos p)) 53) as [H53|H53].
  - rewrite H53 in *. replace (53 + e - 53 - e) with 0 by lia.
    destruct loc as [|[]]; simpl; do 4 eexists;
      (split; [reflexivity|split; [lia|left; split; reflexivity]]).
  - assert (Zpos (digits2_pos p) = 54) as H54 by lia. rewrite H54 in *.
    replace (54 + e - 53 - e) with 1 by lia.
    change (2 ^ (54 - 1)) with (2 ^ 53) in Hd.
    destruct p as [p'|p'|]; [| |simpl in Hd; lia];
      destruct loc as [|[]]; simpl; do 4 eexists;
        (split; [reflexivity|split; [lia|right; split; lia]]).
Qed.

Lemma round_aux_value (q e : Z) (loc : location) :
  2 ^ 52 <= q < 2 ^ 54 -> -1074 <= e <= 900 ->
  exists m e', binary_round_aux prec emax false q e loc = S754_finite false m e'
               /\ 2 ^ 52 <= Zpos m < 2 ^ 53
               /\ e <= e' <= e + 2
               /\ (Zpos m - 1) * 2 ^ (e' - e) <= q.
Proof.
  intros Hq He. destruct q as [|p|p]; try lia.
  destruct (shr_fexp_floor p e loc Hq ltac:(lia)) as (p1 & r1 & s1 & e1 & H1 & Hp1 & Hv1).
  unfold binary_round_aux. rewrite H1. cbn [shr_m].
  assert (exists p2, round_nearest_even (Zpos p1) (loc_of_shr_record (Build_shr_record (Zpos p1) r1 s1))
                     = Zpos p2 /\ Zpos p1 <= Zpos p2 <= Zpos p1 + 1) as (p2 & -> & Hp2).
  { destruct r1, s1; cbn [loc_of_shr_record round_nearest_even];
      try (exists p1; split; [reflexivity|lia]).
    - exists (p1 + 1)%positive. split; [reflexivity|lia].
    - destruct (Z.even (Zpos p1)); [exists p1|exists (p1 + 1)%positive];
        (split; [reflexivity|lia]). }
  assert (-1074 <= e1) as He1 by (destruct Hv1 as [[-> _]|[-> _]]; lia).
  destruct (shr_fexp_floor p2 e1 loc_Exact ltac:(lia) He1)
    as (p3 & r3 & s3 & e3 & H3 & Hp3 & Hv3).
  rewrite H3. cbn [shr_m].
  destruct (Z.leb_spec e3 (emax - prec)) as [_|Hgt];
    [|unfold emax, prec in Hgt; destruct Hv1 as [[-> _]|[-> _]], Hv3 as [[-> _]|[-> _]]; lia].
  exists p3, e3. split; [reflexivity|]. split; [exact Hp3|].
  destruct Hv1 as [[-> ->]|[-> Hh1]], Hv3 as [[-> ->]|[-> Hh3]].
  - replace (e - e) with 0 by lia. change (2 ^ 0) with 1. lia.
  - replace (e + 1 - e) with 1 by lia. change (2 ^ 1) with 2. lia.
  - replace (e + 1 - e) with 1 by lia. change (2 ^ 1) with 2. lia.
  - replace (e + 1 + 1 - e) with 2 by lia. change (2 ^ 2) with 4. lia.
Qed.

Lemma div_quarters_bound (n d : Z) :
  0 < n < 2 ^ 53 -> 0 < d < 2 ^ 53 -> n <= 5 * d ->
  exists m e, Number.div (quarters n) (quarters d) = S754_finite false m e
              /\ e <= -8 /\ Zpos m - 1 <= 5 * 2 ^ (- e).
Proof.
  intros Hn Hd Hnd. destruct d as [|pd|pd]; try lia. rewrite (quarters_pos pd) by lia.
  destruct n as [|pn|pn]; try lia.
  rewrite (quarters_pos pn) by lia.
  set (dn := Zpos (digits2_pos pn)). set (dd := Zpos (digits2_pos pd)).
  assert (1 <= dn <= 53) by (split; [unfold dn; lia|apply digits_le; lia]).
  assert (1 <= dd <= 53) by (split; [unfold dd; lia|apply digits_le; lia]).
  set (mn := shl pn (Z.to_nat (53 - dn))). set (md := shl pd (Z.to_nat (53 - dd))).
  assert (Zpos (digits2_pos mn) = 53) as Hmn by (unfold mn; rewrite digits_shl; fold dn; lia).
  assert (Zpos (digits2_pos md) = 53) as Hmd by (unfold md; rewrite digits_shl; fold dd; lia).
  pose proof (digits_spec mn) as Bn. pose proof (digits_spec md) as Bd.
  rewrite Hmn in Bn. rewrite Hmd in Bd. change (2 ^ (53 - 1)) with (2 ^ 52) in *.
  unfold Number.div, SFdiv, SFdiv_core_binary. simpl Zdigits2. rewrite Hmn, Hmd.
  rewrite fexp_normal by lia.
  replace (Z.min (53 + (dn - 55) - (53 + (dd - 55)) - 53) (dn - 55 - (dd - 55)))
    with (dn - dd - 53) by lia.
  replace (dn - 55 - (dd - 55) - (dn - dd - 53)) with 53 by lia.
  rewrite Z.shiftl_mul_pow2 by lia.
  pose proof (Z.div_eucl_eq (Zpos mn * 2 ^ 53) (Zpos md) ltac:(lia)) as Heq.
  pose proof (Z.mod_pos_bound (Zpos mn * 2 ^ 53) (Zpos md) ltac:(lia)) as Hmod.
  unfold Z.modulo in Hmod.
  destruct (Z.div_eucl (Zpos mn * 2 ^ 53) (Zpos md)) as [q r].
  assert (2 ^ 52 <= q < 2 ^ 54) as Hq by nia.
  destruct (round_aux_value q (dn - dd - 53) (new_location (Zpos md) r) Hq ltac:(lia))
    as (m & e & Hr & Hm & He & Hv).
  cbn [xorb]. rewrite Hr. exists m, e. split; [reflexivity|].
  set (a := 53 - dn) in *. set (b := 53 - dd) in *.
  set (s := e - (dn - dd - 53)) in *.
  assert (0 <= s <= 2) as Hs by (unfold s; lia).
  assert (Zpos mn = Zpos pn * 2 ^ a) as En by (unfold mn; rewrite Zpos_shl, Z2Nat.id by lia; reflexivity).
  assert (Zpos md = Zpos pd * 2 ^ b) as Ed by (unfold md; rewrite Zpos_shl, Z2Nat.id by lia; reflexivity).
  assert (0 < 2 ^ a) as Pa by (apply Z.pow_pos_nonneg; lia).
  assert (0 < 2 ^ b) as Pb by (apply Z.pow_pos_nonneg; lia).
  assert (0 < 2 ^ s) as Ps by (apply Z.pow_pos_nonneg; lia).
  (* (m - 1) * 2^s * md <= mn * 2^53 *)
  assert ((Zpos m - 1) * 2 ^ s * Zpos md <= Zpos mn * 2 ^ 53) as H1.
  { apply Z.le_trans with (q * Zpos md); [|lia].
    apply Z.mul_le_mono_nonneg_r; lia. }
  rewrite En, Ed in H1.
  assert ((Zpos m - 1) * 2 ^ (s + b) <= 5 * 2 ^ (a + 53)) as H2.
  { rewrite !Z.pow_add_r by lia.
    apply (Z.mul_le_mono_pos_r _ _ (Zpos pd)); [lia|].
    apply Z.le_trans with (Zpos pn * 2 ^ a * 2 ^ 53); [lia|].
    replace (5 * (2 ^ a * 2 ^ 53) * Zpos pd) with ((5 * Zpos pd) * (2 ^ a * 2 ^ 53)) by lia.
    replace (Zpos pn * 2 ^ a * 2 ^ 53) with (Zpos pn * (2 ^ a * 2 ^ 53)) by lia.
    apply Z.mul_le_mono_nonneg_r; lia. }
  assert (s + b < a + 5) as Hlt.
  { apply (Z.pow_lt_mono_r_iff 2); [lia|lia|].
    replace (a + 5) with (a + 53 - 48) by lia.
    assert (2 ^ (a + 53) = 2 ^ (a + 53 - 48) * 2 ^ 48) as E48
        by (rewrite <- Z.pow_add_r by lia; f_equal; lia).
    assert (0 < 2 ^ (a + 53 - 48)) as PX by (apply Z.pow_pos_nonneg; lia).
    rewrite E48 in H2.
    set (X := 2 ^ (a + 53 - 48)) in *. set (Y := 2 ^ (s + b)) in *.
    destruct (Z.lt_ge_cases Y X) as [Hlt|Hge]; [exact Hlt|exfalso].
    assert ((2 ^ 52 - 1) * X <= (Zpos m - 1) * Y) as HXY
        by (apply Z.mul_le_mono_nonneg; lia).
    clear - HXY H2 PX. lia. }
  assert (- e = a + 53 - (s + b)) as Ee by (unfold s, a, b; lia).
  split; [lia|]. rewrite Ee.
  assert (2 ^ (a + 53) = 2 ^ (a + 53 - (s + b)) * 2 ^ (s + b)) as E2
      by (rewrite <- Z.pow_add_r by lia; f_equal; lia).
  assert (0 < 2 ^ (s + b)) by (apply Z.pow_pos_nonneg; lia).
  rewrite E2 in H2.
  apply (Z.mul_le_mono_pos_r _ _ (2 ^ (s + b))); lia.
Qed.

Lemma points_weight_quarters (c : Course) :
  In (grade c) avaliableGrades ->
  0 <= quarters_of (points c) <= 5 * quarters_of (weight c)
  /\ 2 <= quarters_of (weight c) <= 8.
Proof.
  intros Hg. unfold points.
  set (boost := course_boost (name c) (grade c)).
  assert (boost = (if less_than (gradeToGPA (grade c)) (Num (literal 18 (-1))) then literal 0 0
                   else if starts_with "AP " (name c) || starts_with "AT " (name c)
                        then literal 5 (-1) else literal 0 0)) as Hb by reflexivity.
  clearbody boost. subst boost.
  unfold weight, calculate_credit_hours.
  destruct (starts_with "AP " (name c) || starts_with "AT " (name c));
    (destruct (existsb _ _); [|destruct (_ || _)]);
    unfold avaliableGrades in Hg; simpl in Hg;
    repeat (destruct Hg as [<-|Hg]; [vm_compute; intuition discriminate|]); destruct Hg.
Qed.

Lemma sumZ_bounds (l : list Course) :
  Forall (fun c => In (grade c) avaliableGrades) l ->
  0 <= sumZ (map (fun c => quarters_of (points c)) l)
       <= 5 * sumZ (map (fun c => quarters_of (weight c)) l)
  /\ 2 * Z.of_nat (length l) <= sumZ (map (fun c => quarters_of (weight c)) l)
       <= 8 * Z.of_nat (length l).
Proof.
  induction 1 as [|c l Hc _ IH]; [simpl; lia|].
  pose proof (points_weight_quarters c Hc).
  cbn [map sumZ fold_right length]. fold (sumZ (map (fun c => quarters_of (points c)) l)).
  fold (sumZ (map (fun c => quarters_of (weight c)) l)).
  rewrite Nat2Z.inj_succ. lia.
Qed.

Lemma fixed_integer_bound (m : positive) (e : Z) :
  e <= -8 -> Zpos m - 1 <= 5 * 2 ^ (- e) ->
  0 <= NumberString.fixed_integer m e 2 <= 500.
Proof.
  intros He Hm. unfold NumberString.fixed_integer.
  destruct (Z.leb_spec 0 e) as [|_]; [lia|].
  change (10 ^ Z.of_nat 2) with 100.
  replace (1 - e) with (Z.succ (- e)) by lia. rewrite Z.pow_succ_r by lia.
  assert (2 ^ 8 <= 2 ^ (- e)) as HD by (apply Z.pow_le_mono_r; lia).
  change (2 ^ 8) with 256 in HD.
  set (D := 2 ^ (- e)) in *. split.
  - apply Z.div_pos; lia.
  - apply Z.lt_succ_r. apply Z.div_lt_upper_bound; lia.
Qed.

(** X1: for fewer than [2 ^ 32] courses whose grades are letter grades or
    convert to -1, the result is a number of hundredths between ["0.00"]
    and ["5.00"], printed with two decimal places. *)
Theorem calculate_gpa_range (courses : list Course) :
  Forall sane courses -> Z.of_nat (length courses) < 2 ^ 32 ->
  exists n, 0 <= n <= 500 /\ calculate_gpa courses = NumberString.fixed_digits n 2.
Proof.
  intros Hsane Hlen. rewrite calculate_gpa_accumulates. cbv zeta.
  destruct (totals_exact courses Hsane Hlen) as [-> ->].
  pose proof (counted_letter_grades courses Hsane) as Hc.
  set (counted := List.filter counts courses) in *.
  assert (Z.of_nat (length counted) <= Z.of_nat (length courses)) as Hle.
  { apply Nat2Z.inj_le. unfold counted. apply List.filter_length_le. }
  destruct (sumZ_bounds counted Hc) as [Hp Hw].
  set (tp := sumZ (map (fun c => quarters_of (points c)) counted)) in *.
  set (tw := sumZ (map (fun c => quarters_of (weight c)) counted)) in *.
  destruct (Z.eq_dec tw 0) as [Hz|Hnz].
  - rewrite Hz. change (Number.eqb (quarters 0) (literal 0 0)) with true. cbv iota.
    exists 0. split; [lia|reflexivity].
  - rewrite eqb_quarters_zero by lia.
    destruct (Z.eq_dec tp 0) as [Hpz|Hpnz].
    + rewrite Hpz. exists 0. split; [lia|].
      destruct tw as [|pw|pw]; try lia. rewrite (quarters_pos pw) by lia. reflexivity.
    + destruct (div_quarters_bound tp tw ltac:(lia) ltac:(lia) ltac:(lia))
        as (m & e & -> & He & Hm).
      exists (NumberString.fixed_integer m e 2).
      split; [apply fixed_integer_bound; assumption|].
      unfold NumberString.toFixed. rewrite append_nil.
      destruct (Z.leb_spec (10 ^ 21 * NumberString.den e) (NumberString.num m e)) as [Hge|_];
        [|reflexivity].
      exfalso. unfold NumberString.den, NumberString.num in Hge.
      destruct (Z.leb_spec 0 e); [lia|].
      assert (0 < 2 ^ (- e)) by (apply Z.pow_pos_nonneg; lia). lia.
Qed.

Lemma calculate_gpa_range_witness :
  exists n, 0 <= n <= 500
    /\ calculate_gpa [course "AP Calc" "A+"; course "IS: Lab" "C"; course "Band" "P"]
       = NumberString.fixed_digits n 2.
Proof.
  apply (calculate_gpa_range [course "AP Calc" "A+"; course "IS: Lab" "C"; course "Band" "P"]).
  - sane_courses.
  - reflexivity.
Defined.

End GradePointAverageRange.

(** ** The grades that convert to -1 *)

Section UnrecognizedGrades.

Lemma own_property_Some (o : object) (key : string) :
  In key (own_keys o) -> is_Some (own_property o key).
Proof.
  unfold own_property, own_keys. induction o as [|[k v] o IH]; intros Hin; [destruct Hin|].
  simpl in *. destruct (String.eqb_spec k key); [eexists; reflexivity|].
  destruct Hin as [?|Hin]; [congruence|]. apply IH, Hin.
Qed.

(** X6: [gradeToGPA] returns -1 exactly for the strings that are neither
    one of the nine letter grades nor the name of a property of
    [Object.prototype], and [gradeToFP] returns -1 for the same strings. *)
Theorem grade_tables_minus_one_iff (grade : string) :
  (gradeToGPA grade = Num (literal (-1) 0)
   <-> ~ In grade avaliableGrades /\ ~ In grade (own_keys Object_prototype))
  /\ (gradeToFP grade = Num (literal (-1) 0) <-> gradeToGPA grade = Num (literal (-1) 0)).
Proof.
  assert (forall g, In g avaliableGrades \/ In g (own_keys Object_prototype) ->
                    gradeToGPA g <> Num (literal (-1) 0) /\ gradeToFP g <> Num (literal (-1) 0))
    as Hlisted.
  { intros g [Hg|Hg]; simpl in Hg;
      repeat (destruct Hg as [<-|Hg]; [split; discriminate|]); destruct Hg. }
  assert (gradeToGPA grade = Num (literal (-1) 0)
          <-> ~ In grade avaliableGrades /\ ~ In grade (own_keys Object_prototype)) as HG.
  { split.
    - intros H. split; intros Hin; [destruct (Hlisted grade (or_introl Hin))
                                   |destruct (Hlisted grade (or_intror Hin))]; contradiction.
    - intros [H1 H2]. apply grade_tables_unlisted; rewrite list_elem_of_In; assumption. }
  split; [exact HG|]. rewrite HG. split.
  - intros H. split; intros Hin; [destruct (Hlisted grade (or_introl Hin))
                                 |destruct (Hlisted grade (or_intror Hin))]; contradiction.
  - intros [H1 H2]. apply grade_tables_unlisted; rewrite list_elem_of_In; assumption.
Qed.

(** X7: a course that gets the boost of 0.5 has one credit hour: no name
    both begins with ["AP "] or ["AT "] and is a double course or an
    independent study. *)
Theorem boosted_course_weight (course_name grade : string) :
  course_boost course_name grade = literal 5 (-1) ->
  calculate_credit_hours course_name = literal 1 0.
Proof.
  unfold course_boost.
  destruct (less_than _ _); [discriminate|].
  destruct (starts_with "AP " course_name || starts_with "AT " course_name) eqn:Hp;
    [|discriminate].
  intros _. apply orb_true_iff in Hp. rewrite !starts_with_begins in Hp.
  destruct Hp as [[rest ->]|[rest ->]]; reflexivity.
Qed.

Lemma boosted_course_weight_witness : calculate_credit_hours "AT Physics" = literal 1 0.
Proof. apply (boosted_course_weight "AT Physics" "B"). reflexivity. Defined.

End UnrecognizedGrades.

(** ** The lines and the tokens of the final percent *)

Section FinalPercentLines.

(** X8: [extractFinalPercent] returns for every page: it never throws,
    and it never returns negative infinity. *)
Theorem extractFinalPercent_total (html : string) :
  exists r, extractFinalPercent html = Return r
            /\ r <> Some NegInfinity.
Proof.
  rewrite extractFinalPercent_by_line. eexists. split; [reflexivity|].
  destruct (match_document_write html) as [ms|]; [|discriminate].
  destruct (ms !! 1%nat) as [line|]; [|discriminate].
  unfold percent_of_line. destruct (exec_brackets line) as [[|m l]|]; try discriminate.
  unfold percent_of_tokens.
  destruct (Number.max _ _) as [[]|[]| |[]]; discriminate.
Qed.

Lemma prefix_before_terminator (p s t : string) (nl : ascii) :
  ~ In nl (list_ascii_of_string p) ->
  String.prefix p (s ++ String nl t) = String.prefix p s.
Proof.
  revert s. induction p as [|c p IH]; intros s Hp; [destruct s; reflexivity|].
  destruct s as [|d s].
  - rewrite append_nil. simpl. destruct (Ascii.ascii_dec c nl) as [->|]; [|reflexivity].
    exfalso. apply Hp. left. reflexivity.
  - rewrite append_cons. simpl. destruct (Ascii.ascii_dec c d); [|reflexivity].
    apply IH. intros Hin. apply Hp. right. exact Hin.
Qed.

Lemma rest_of_line_app (s t : string) (nl : ascii) :
  is_line_terminator nl = true ->
  rest_of_line (s ++ String nl t) = rest_of_line s.
Proof.
  intros Hnl. unfold rest_of_line. induction s as [|c s IH].
  - rewrite append_nil. simpl. rewrite Hnl. reflexivity.
  - rewrite append_cons. simpl. destruct (is_line_terminator c); [reflexivity|]. simpl.
    destruct (span _ (s ++ String nl t)) as [a b], (span _ s) as [a' b'].
    simpl in *. congruence.
Qed.

Lemma matches_app (in_match : bool) (s t : string) (nl : ascii) :
  is_line_terminator nl = true ->
  matches_document_write in_match (s ++ String nl t)
  = (matches_document_write in_match s ++ matches_document_write false t)%list.
Proof.
  intros Hnl.
  assert (~ In nl (list_ascii_of_string "document.write")) as Hmarker.
  { intros Hin. simpl in Hin.
    repeat (destruct Hin as [<-|Hin]; [discriminate Hnl|]). destruct Hin. }
  revert in_match. induction s as [|c s IH]; intros in_match.
  - rewrite append_nil. cbn [matches_document_write]. rewrite Hnl.
    destruct in_match; [reflexivity|].
    unfold starts_with.
    pose proof (prefix_before_terminator "document.write" "" t nl Hmarker) as Hp.
    rewrite append_nil in Hp. rewrite Hp. reflexivity.
  - rewrite append_cons. cbn [matches_document_write].
    destruct in_match; [apply IH|].
    unfold starts_with.
    pose proof (prefix_before_terminator "document.write" (String c s) t nl Hmarker) as Hp.
    pose proof (rest_of_line_app (String c s) t nl Hnl) as Hr.
    rewrite append_cons in Hp, Hr. rewrite Hp.
    destruct (String.prefix "document.write" (String c s)); [|apply IH].
    rewrite Hr, IH. reflexivity.
Qed.

(** X9: when the page has two matches of [document.write], what follows
    on later lines does not change the result: only the second match is
    read. *)
Theorem extractFinalPercent_ignores_later_lines (html tail : string) (nl : ascii) :
  is_line_terminator nl = true ->
  (2 <= length (matches_document_write false html))%nat ->
  extractFinalPercent (html ++ String nl tail) = extractFinalPercent html.
Proof.
  intros Hnl Hlen. rewrite !extractFinalPercent_by_line. unfold match_document_write.
  rewrite matches_app by exact Hnl.
  destruct (matches_document_write false html) as [|m1 [|m2 ms]]; simpl in Hlen; try lia.
  reflexivity.
Qed.

Lemma extractFinalPercent_ignores_later_lines_witness :
  extractFinalPercent
    (page_two_markers ++ String (ascii_of_nat 10) "document.write('[7;8;9]')")
  = extractFinalPercent page_two_markers.
Proof.
  apply (extractFinalPercent_ignores_later_lines page_two_markers "document.write('[7;8;9]')"
           (ascii_of_nat 10)).
  - reflexivity.
  - vm_compute. lia.
Defined.

Lemma shr_1_nonneg (mrs : shr_record) : 0 <= shr_m mrs -> 0 <= shr_m (shr_1 mrs).
Proof.
  destruct mrs as [m r s]. simpl. destruct m as [|[p|p|]|p]; simpl; lia.
Qed.

Lemma shr_nonneg (mrs : shr_record) (e n : Z) : 0 <= shr_m mrs -> 0 <= shr_m (fst (shr mrs e n)).
Proof.
  intros Hm. unfold shr. destruct n as [|p|p]; simpl; try exact Hm.
  rewrite iter_pos_nat. induction (Pos.to_nat p) as [|k IH]; [exact Hm|].
  simpl. apply shr_1_nonneg, IH.
Qed.

Lemma shr_fexp_nonneg (m e : Z) (l : location) :
  0 <= m -> 0 <= shr_m (fst (shr_fexp prec emax m e l)).
Proof.
  intros Hm. unfold shr_fexp. apply shr_nonneg. destruct l as [|[]]; exact Hm.
Qed.

Lemma round_aux_signed (s : bool) (m e : Z) (l : location) :
  0 <= m -> signed s (binary_round_aux prec emax s m e l).
Proof.
  intros Hm. unfold binary_round_aux.
  pose proof (shr_fexp_nonneg m e l Hm) as H1.
  destruct (shr_fexp prec emax m e l) as [mrs1 e1]. simpl in H1.
  assert (0 <= round_nearest_even (shr_m mrs1) (loc_of_shr_record mrs1)) as H2.
  { unfold round_nearest_even. destruct (loc_of_shr_record mrs1) as [|[]]; try lia.
    destruct (Z.even (shr_m mrs1)); lia. }
  pose proof (shr_fexp_nonneg _ e1 loc_Exact H2) as H3.
  destruct (shr_fexp prec emax _ e1 loc_Exact) as [mrs2 e2]. simpl in H3.
  destruct (shr_m mrs2) as [|p|p]; [reflexivity| |lia].
  destruct (e2 <=? emax - prec); reflexivity.
Qed.

Lemma of_decimal_signed (d : N) : signed false (of_decimal false d 0).
Proof.
  destruct d as [|p]; [reflexivity|]. unfold of_decimal. simpl Z.leb. cbv iota.
  unfold cond_Zopp. change (10 ^ 0) with 1. rewrite Z.mul_1_r.
  unfold binary_normalize, binary_round.
  destruct (shl_align p 0 _) as [mz ez]. apply round_aux_signed. lia.
Qed.

Lemma max_signed (x y : number) : signed false x -> signed false y -> signed false (Number.max x y).
Proof.
  intros Hx Hy. unfold Number.max.
  destruct x as [sx|sx| |sx mx ex], y as [sy|sy| |sy my ey]; simpl in *; subst;
    try contradiction; try reflexivity;
    match goal with |- context [if ?b then _ else _] => destruct b end; reflexivity.
Qed.

Lemma digit_not_white (c : ascii) : is_digit c = true -> is_white_space c = false.
Proof. destruct c as [[] [] [] [] [] [] [] []]; intros H; try discriminate H; reflexivity. Qed.

Lemma trim_end_digits (s : string) : all_digits s -> trim_end s = s.
Proof.
  unfold all_digits. induction s as [|c s IH]; intros Hs; [reflexivity|].
  inversion Hs as [|? ? Hc Hs']; subst. simpl. rewrite (IH Hs').
  destruct s; [rewrite (digit_not_white c Hc)|]; reflexivity.
Qed.

Lemma trim_digits (s : string) : all_digits s -> trim s = s.
Proof.
  intros Hs. unfold trim.
  assert (trim_start s = s) as ->.
  { destruct s as [|c s]; [reflexivity|]. apply digit_head. inversion Hs; assumption. }
  apply trim_end_digits, Hs.
Qed.

Lemma append_nil_r (s : string) : s ++ "" = s.
Proof. induction s as [|c s IH]; [reflexivity|]. rewrite append_cons, IH. reflexivity. Qed.

Lemma StrDecimalLiteral_digits (s : string) :
  all_digits s -> s <> "" ->
  NumericLiteral.StrDecimalLiteral s = Some (of_decimal false (decimal_value s) 0, "").
Proof.
  intros Hs Hne. destruct s as [|c s]; [contradiction|].
  assert (is_digit c = true) as Hc by (inversion Hs; assumption).
  destruct (digit_head c s Hc) as (_ & Hsign & Hinf).
  unfold NumericLiteral.StrDecimalLiteral. rewrite Hsign, Hinf.
  unfold NumericLiteral.unsigned_decimal. rewrite (span_digits_all _ Hs).
  cbn iota beta. rewrite append_nil_r. reflexivity.
Qed.

Lemma token_number_digits (s : string) :
  all_digits s -> s <> "" ->
  token_number (Some s) = of_decimal false (decimal_value s) 0.
Proof.
  intros Hs Hne. unfold token_number, isNaN, parseFloat. simpl value_of_string.
  change (ToString (Str s)) with s. change (ToNumber (Str s)) with (NumericLiteral.StringToNumber s).
  unfold NumericLiteral.StringToNumber, NumericLiteral.parseFloat_string.
  rewrite (trim_digits s Hs).
  assert (trim_start s = s) as ->.
  { destruct s as [|c s]; [reflexivity|]. apply digit_head. inversion Hs; assumption. }
  rewrite (StrDecimalLiteral_digits s Hs Hne).
  destruct s as [|c s]; [contradiction|].
  pose proof (of_decimal_signed (decimal_value (String c s))) as Hsg.
  destruct (of_decimal false (decimal_value (String c s)) 0); simpl in *;
    [reflexivity..|contradiction|reflexivity].
Qed.

Lemma split_no_sep (sep : ascii) (s : string) :
  ~ In sep (list_ascii_of_string s) -> split sep s = [s].
Proof.
  induction s as [|c s IH]; intros Hs; [reflexivity|].
  simpl. destruct (Ascii.eqb_spec c sep) as [->|Hne].
  - exfalso. apply Hs. left. reflexivity.
  - rewrite IH; [reflexivity|]. intros Hin. apply Hs. right. exact Hin.
Qed.

Lemma digits_no_semicolon (s : string) : all_digits s -> ~ In ";"%char (list_ascii_of_string s).
Proof.
  unfold all_digits. intros Hs Hin. rewrite List.Forall_forall in Hs.
  specialize (Hs _ Hin). discriminate Hs.
Qed.

(** X10: when the bracketed list of the second match ends with two
    tokens of decimal digits, the result is the larger of the two numbers
    that the tokens denote. *)
Theorem extractFinalPercent_digit_tokens (html : string) (ms : list string)
    (line body a b : string) :
  match_document_write html = Some ms -> ms !! 1%nat = Some line ->
  exec_brackets line = Some ["[" ++ body ++ ";" ++ a ++ ";" ++ b ++ "]"] ->
  all_digits a -> a <> "" -> all_digits b -> b <> "" ->
  extractFinalPercent html
  = Return (Some (Number.max (of_decimal false (decimal_value a) 0)
                             (of_decimal false (decimal_value b) 0))).
Proof.
  intros Hm Hl He Ha Hane Hb Hbne.
  rewrite extractFinalPercent_by_line, Hm, Hl. unfold percent_of_line. rewrite He.
  replace ("[" ++ body ++ ";" ++ a ++ ";" ++ b ++ "]")
    with ("[" ++ (body ++ ";" ++ a ++ ";" ++ b) ++ "]")
    by (rewrite !string_app_assoc; reflexivity).
  rewrite slice_brackets.
  change (body ++ ";" ++ a ++ ";" ++ b) with (body ++ String ";" (a ++ String ";" b)).
  rewrite !split_app_sep.
  rewrite (split_no_sep ";" a (digits_no_semicolon a Ha)).
  rewrite (split_no_sep ";" b (digits_no_semicolon b Hb)).
  unfold percent_of_tokens.
  replace (split ";" body ++ [a] ++ [b])%list with ((split ";" body ++ [a]) ++ [b])%list
    by (rewrite <- app_assoc; reflexivity).
  rewrite removelast_last, !last_snoc.
  rewrite (token_number_digits a Ha Hane), (token_number_digits b Hb Hbne).
  pose proof (max_signed _ _ (of_decimal_signed (decimal_value a))
                (of_decimal_signed (decimal_value b))) as Hsg.
  destruct (Number.max _ _) as [s|s| |s m e]; simpl in Hsg; subst; try contradiction; reflexivity.
Qed.

Lemma extractFinalPercent_digit_tokens_witness :
  extractFinalPercent page_two_markers
  = Return (Some (Number.max (of_decimal false (decimal_value "85") 0)
                             (of_decimal false (decimal_value "90") 0))).
Proof.
  apply (extractFinalPercent_digit_tokens page_two_markers
           ["document.write('[1;2]')"; "document.write('[3;85;90]')"]
           "document.write('[3;85;90]')" "3" "85" "90").
  - reflexivity.
  - reflexivity.
  - reflexivity.
  - repeat constructor.
  - discriminate.
  - repeat constructor.
  - discriminate.
Defined.

End FinalPercentLines.

(** ** The number and the order of the assignments *)

Section AssignmentRows.





(** X12: [assignments] throws a [TypeError] exactly when no descendant
    of the node is a [table] whose [align] attribute is [center]; it then
    reads a property of [null]. *)
Theorem assignments_throws_iff (node : element) :
  assignments node = Throw TypeError
  <-> Forall (fun e => tag_of e <> "table"
                       \/ forall v, getAttribute e "align" = Some v ->
                                    lower_case v <> "center") (descendants node).
Proof.
  unfold assignments, querySelector, querySelectorAll.
  assert (forall e, selects centered_table e = false <->
                    (tag_of e <> "table"
                     \/ forall v, getAttribute e "align" = Some v -> lower_case v <> "center"))
    as Hsel.
  { intros e. unfold selects, centered_table. simpl.
    rewrite andb_false_iff, String.eqb_neq.
    destruct (getAttribute e "align") as [w|].
    - rewrite String.eqb_neq. split; (intros [H|H]; [left; exact H|right]).
      + intros v [= <-]. exact H.
      + apply H. reflexivity.
    - split; (intros [H|H]; [left; exact H|right]); [intros v Hv; discriminate|reflexivity]. }
  induction (descendants node) as [|e l IH]; simpl.
  - split; [constructor|reflexivity].
  - destruct (selects centered_table e) eqn:He; simpl.
    + split; [discriminate|]. intros H. inversion H as [|? ? Hh _]; subst.
      apply Hsel in Hh. congruence.
    + rewrite IH. split; [intros H; constructor; [apply Hsel, He|exact H]
                         |intros H; inversion H; assumption].
Qed.

End AssignmentRows.

(** ** The storage after a save *)

Section Storage.

Lemma fold_toObject (courses : list Course) (acc : list CourseRecord) :
  fold_left (fun l c => (l ++ [toObject c])%list) courses acc = (acc ++ map toObject courses)%list.
Proof.
  revert acc. induction courses as [|c cs IH]; intros acc; simpl; [rewrite app_nil_r; reflexivity|].
  rewrite IH, <- app_assoc. reflexivity.
Qed.

Lemma saveGradesLocally_inserts (store : gmap string stored) (username : string)
    (courses : list Course) :
  saveGradesLocally store username courses
  = <[ "most_recent_user" := UserName username ]>
      (<[ "USERDATA_" ++ username := UserData (Some (map toObject courses)) ]> store).
Proof.
  unfold saveGradesLocally. rewrite fold_toObject. simpl.
  rewrite <- !insert_union_l, (left_id_L ∅ (∪)). reflexivity.
Qed.

(** X13: after [saveGradesLocally] the storage holds the records of the
    courses, in their order, under the key of the user, the name of the
    user under [most_recent_user], and what it held before under every
    other key. *)
Theorem saveGradesLocally_lookup (store : gmap string stored) (username : string)
    (courses : list Course) :
  let store' := saveGradesLocally store username courses in
  store' !! ("USERDATA_" ++ username) = Some (UserData (Some (map toObject courses)))
  /\ store' !! "most_recent_user" = Some (UserName username)
  /\ forall key, key <> "USERDATA_" ++ username -> key <> "most_recent_user" ->
                 store' !! key = store !! key.
Proof.
  intros store'. unfold store'. rewrite saveGradesLocally_inserts. split; [|split].
  - rewrite lookup_insert_ne by discriminate. apply lookup_insert_eq.
  - apply lookup_insert_eq.
  - intros key H1 H2. rewrite !lookup_insert_ne by congruence. reflexivity.
Qed.

(** X14: saving twice for one user leaves the storage as the second save
    alone does: the first list is replaced, not extended. *)
Theorem saveGradesLocally_overwrites (store : gmap string stored) (username : string)
    (first second : list Course) :
  saveGradesLocally (saveGradesLocally store username first) username second
  = saveGradesLocally store username second.
Proof.
  rewrite !saveGradesLocally_inserts.
  rewrite (insert_insert_ne _ "most_recent_user" ("USERDATA_" ++ username)) by discriminate.
  rewrite insert_insert_eq.
  rewrite (insert_insert_ne _ ("USERDATA_" ++ username) "most_recent_user") by discriminate.
  rewrite insert_insert_eq. reflexivity.
Qed.

(** X15: saving for one user leaves the record of every other user
    as it was. *)
Theorem saveGradesLocally_other_user (store : gmap string stored) (username other : string)
    (courses : list Course) :
  other <> username ->
  saveGradesLocally store username courses !! ("USERDATA_" ++ other)
  = store !! ("USERDATA_" ++ other).
Proof.
  intros Hne. rewrite saveGradesLocally_inserts.
  rewrite lookup_insert_ne by discriminate.
  rewrite lookup_insert_ne; [reflexivity|]. intros H.
  apply (f_equal (JSString.drop 9)) in H. change (username = other) in H. congruence.
Qed.

Lemma saveGradesLocally_other_user_witness :
  saveGradesLocally {[ "USERDATA_bob" := UserData (Some []) ]} "alice" [course "Algebra I" "A"]
    !! "USERDATA_bob"
  = ({[ "USERDATA_bob" := UserData (Some []) ]} : gmap string stored) !! "USERDATA_bob".
Proof.
  apply (saveGradesLocally_other_user {[ "USERDATA_bob" := UserData (Some []) ]} "alice" "bob").
  discriminate.
Defined.

End Storage.

(** ** The analytics message *)

Section Analytics.

Lemma split_head (sep : ascii) (s : string) :
  exists h rest, split sep s = h :: rest /\ ~ has_char sep h
                 /\ (s = h \/ exists t, s = h ++ String sep t).
Proof.
  induction s as [|c s (h & rest & Hs & Hh & Hd)].
  - exists "", []. repeat split; [intros []|left; reflexivity].
  - simpl. destruct (Ascii.eqb_spec c sep) as [->|Hne].
    + exists "", (split sep s). repeat split; [intros []|right; exists s; reflexivity].
    + rewrite Hs. exists (String c h), rest. repeat split.
      * intros [Hc|Hc]; [congruence|exact (Hh Hc)].
      * destruct Hd as [->|[t ->]]; [left; reflexivity|right; exists t; reflexivity].
Qed.

(** X16: without a [url], or with the empty one, [analytics_message]
    sends one message, after those sent before, whose url is the address
    of the page up to its first question mark: it has no question mark,
    and the address is the url, or the url, a question mark and a query. *)
Theorem analytics_message_default_url (location_href : string) (sent : list message)
    (action_input : string) (url : option string) :
  url = None \/ url = Some "" ->
  exists h, analytics_message location_href sent action_input url
            = (sent ++ [mkMessage "analytics_send" (Some h) action_input])%list
            /\ ~ has_char "?" h
            /\ (location_href = h \/ exists query, location_href = h ++ "?" ++ query).
Proof.
  intros Hurl. destruct (split_head "?" location_href) as (h & rest & Hs & Hh & Hd).
  exists h. split; [|split; [exact Hh|exact Hd]].
  unfold analytics_message. destruct Hurl as [-> | ->]; rewrite Hs; reflexivity.
Qed.

Lemma analytics_message_default_url_witness :
  exists h,
    analytics_message "https://ps.example/guardian/home.html?x=1" [] "page_view" None
    = ([] ++ [mkMessage "analytics_send" (Some h) "page_view"])%list
    /\ ~ has_char "?" h
    /\ ("https://ps.example/guardian/home.html?x=1" = h
        \/ exists query, "https://ps.example/guardian/home.html?x=1" = h ++ "?" ++ query).
Proof.
  apply (analytics_message_default_url "https://ps.example/guardian/home.html?x=1" []
           "page_view" None).
  left. reflexivity.
Defined.

End Analytics.
